(** * hrms_freelancer: tax, VAT, withholding and currency calculations

    A shallow embedding of
      - [hrms_freelancer/utils/currency.py]
          ([MOCK_EXCHANGE_RATES], [get_exchange_rate], [convert_currency]),
      - [hrms_freelancer/compliance/doctype/tax_treaty/tax_treaty.py]
          ([get_eu_countries], [get_applicable_treaty], [get_withholding_rate]),
      - [hrms_freelancer/compliance/doctype/vat_configuration/vat_configuration.py]
          ([get_vat_rate]),
      - [hrms_freelancer/utils/tax_calculations.py]
          ([TaxCalculator] and its methods),
    and the properties of the specification checked against them.

    Modelling conventions.
      - Python floats are modelled as exact rationals ([Q]); comparisons of
        amounts are therefore stated with [==], [<] and [<=] of [Q].
      - Python dictionaries with string keys are [gmap string _]; a key that
        may be missing from a returned dict is an [option] field.
      - A Python call either returns a value or raises: [outcome].
      - The database tables read through [frappe.db] and the clock read
        through [nowdate()] are fields of an explicit environment [Env]. *)

From Stdlib Require Import ZArith QArith Qround Qabs Qfield String List Bool Lia Lqa.
From stdpp Require Import base option gmap strings pretty.

Local Open Scope Z_scope.
Local Open Scope Q_scope.
Local Open Scope string_scope.

(** ** Python calls: return or raise *)

Inductive exn : Type :=
| PyExn (name : string).

Definition TypeError : exn := PyExn "TypeError".
Definition DatabaseError : exn := PyExn "DatabaseError".

Inductive outcome (A : Type) : Type :=
| Returned (a : A)
| Raised (e : exn).

Arguments Returned {A} a.
Arguments Raised {A} e.

Definition bind {A B : Type} (m : outcome A) (k : A -> outcome B) : outcome B :=
  match m with
  | Returned a => k a
  | Raised e => Raised e
  end.

Notation "'let*' x ':=' m 'in' k" := (bind m (fun x => k))
  (at level 10, x name, m at level 100, k at level 200).

(** [try: m except Exception: pass], seen as an expression: the value of the
    body when it returned, nothing when it raised. *)
Definition try_pass {A : Type} (m : outcome A) : option A :=
  match m with
  | Returned a => Some a
  | Raised _ => None
  end.

Definition returns {A : Type} (m : outcome A) : Prop := exists a, m = Returned a.
Definition raises {A : Type} (m : outcome A) : Prop := exists e, m = Raised e.

(** ** Numbers *)

(** Round to the nearest integer, ties to the even one (the tie rule of
    Python's built-in [round]). *)
Definition round_half_even (x : Q) : Z :=
  let f := Qfloor x in
  match Qcompare (x - inject_Z f) (1 # 2) with
  | Lt => f
  | Gt => (f + 1)%Z
  | Eq => if Z.even f then f else (f + 1)%Z
  end.

(** [round(x, ndigits)] for an integer [ndigits] of either sign. *)
Definition py_round (x : Q) (ndigits : Z) : Q :=
  if (0 <=? ndigits)%Z
  then inject_Z (round_half_even (x * inject_Z (10 ^ ndigits))) / inject_Z (10 ^ ndigits)
  else inject_Z (round_half_even (x / inject_Z (10 ^ (- ndigits)))) * inject_Z (10 ^ (- ndigits)).

(** Truthiness of a number, and of a nullable number. *)
Definition truthy (x : Q) : bool := negb (Qeq_bool x 0).

Definition truthy_opt (x : option Q) : bool :=
  match x with
  | Some q => truthy q
  | None => false
  end.

(** [a or b] on nullable numbers. *)
Definition py_or (a b : option Q) : option Q :=
  if truthy_opt a then a else b.

(** [x > 0] as a test. *)
Definition Qpos_bool (x : Q) : bool :=
  match Qcompare x 0 with
  | Gt => true
  | _ => false
  end.

(** Dates are day numbers; [None] is SQL NULL. *)
Definition date : Type := Z.

(** ** The environment: database tables and the clock *)

(** A row of the [Currency Exchange] table. *)
Record CurrencyExchange : Type := {
  ce_from_currency : string;
  ce_to_currency : string;
  ce_date : date;
  ce_exchange_rate : Q
}.

(** A [Tax Treaty] document. *)
Inductive TreatyStatus : Type := Active | Superseded | Terminated | Pending.

Record TaxTreaty : Type := {
  name : string;
  treaty_code : string;
  treaty_name : string;
  country_1 : string;
  country_2 : string;
  effective_date : option date;
  expiry_date : option date;
  status : TreatyStatus;
  standard_rate : option Q;
  reduced_rate : option Q;
  dividend_rate : option Q;
  interest_rate : option Q;
  royalty_rate : option Q;
  service_fee_rate : option Q;
  independent_services_rate : option Q;
  certificate_required : bool;
  form_required : option string;
  minimum_stay_days : option Z;
  permanent_establishment_threshold : option Z
}.

(** A [VAT Configuration] document; its name is the country. *)
Record VATConfiguration : Type := {
  country : string;
  is_eu_member : bool;
  vat_standard_rate : option Q;
  reduced_rate_1 : option Q;
  b2b_services_rate : option Q;
  digital_services_rate : option Q;
  professional_services_rate : option Q;
  reverse_charge_b2b : bool
}.

Record Env : Type := {
  (** [None]: the database cannot be reached, a query raises. *)
  currency_exchange : option (list CurrencyExchange);
  tax_treaties : list TaxTreaty;
  vat_configurations : list VATConfiguration;
  (** [nowdate()] *)
  today : date;
  (** [str()] of a number, as an f-string prints it *)
  str_number : Q -> string
}.

(** ** utils/currency.py *)

Module Currency.

(** Mock exchange rates for offline/testing (EUR base). *)
Definition MOCK_EXCHANGE_RATES : gmap string Q :=
  list_to_map [
    ("EUR", 1); ("USD", 108 # 100); ("GBP", 86 # 100); ("CHF", 96 # 100);
    ("PLN", 432 # 100); ("SEK", 1145 # 100); ("DKK", 746 # 100);
    ("NOK", 1165 # 100); ("CZK", 2520 # 100); ("HUF", 395); ("RON", 498 # 100);
    ("BGN", 196 # 100); ("HRK", 753 # 100); ("INR", 9050 # 100); ("JPY", 162);
    ("CNY", 785 # 100); ("AUD", 165 # 100); ("CAD", 147 # 100);
    ("BRL", 535 # 100); ("MXN", 1890 # 100); ("KRW", 1425); ("SGD", 146 # 100);
    ("HKD", 845 # 100); ("ZAR", 2015 # 100); ("RUB", 9850 # 100)
  ].

(** The later of two rows by date; the first one on a tie. *)
Definition later_row (best : option CurrencyExchange) (r : CurrencyExchange)
  : option CurrencyExchange :=
  match best with
  | None => Some r
  | Some b => if (ce_date b <? ce_date r)%Z then Some r else Some b
  end.

(** [frappe.db.get_value("Currency Exchange",
      {"from_currency": f, "to_currency": t, "date": ["<=", d]},
      "exchange_rate", order_by="date desc")]. *)
Definition db_exchange_rate (env : Env) (f t : string) (d : date)
  : outcome (option Q) :=
  match currency_exchange env with
  | None => Raised DatabaseError
  | Some rows =>
      let hits :=
        List.filter (fun r => String.eqb (ce_from_currency r) f
                           && String.eqb (ce_to_currency r) t
                           && (ce_date r <=? d)%Z) rows in
      Returned (option_map ce_exchange_rate (fold_left later_row hits None))
  end.

(** First [try] block of [get_exchange_rate]: the stored rate, when the
    query returns a truthy one. *)
Definition direct_rate (env : Env) (from_currency to_currency : string)
    (date_str : date) : option Q :=
  match try_pass (db_exchange_rate env from_currency to_currency date_str) with
  | Some (Some rate) => if truthy rate then Some rate else None
  | _ => None
  end.

(** Second [try] block: the inverse of the stored reverse rate, when the
    query returns a truthy and positive one. *)
Definition reverse_rate (env : Env) (from_currency to_currency : string)
    (date_str : date) : option Q :=
  match try_pass (db_exchange_rate env to_currency from_currency date_str) with
  | Some (Some reverse_rate) =>
      if truthy reverse_rate && Qpos_bool reverse_rate
      then Some (1 / reverse_rate) else None
  | _ => None
  end.

Definition get_exchange_rate (env : Env) (from_currency to_currency : string)
    (transaction_date : option date) : outcome Q :=
  if String.eqb from_currency to_currency then Returned 1
  else
    let date_str := default (today env) transaction_date in
    match direct_rate env from_currency to_currency date_str with
    | Some rate => Returned rate
    | None =>
      match reverse_rate env from_currency to_currency date_str with
      | Some rate => Returned rate
      | None =>
        (* Fall back to mock rates *)
        let from_rate := default 1 (MOCK_EXCHANGE_RATES !! from_currency) in
        let to_rate := default 1 (MOCK_EXCHANGE_RATES !! to_currency) in
        if Qpos_bool to_rate then Returned (from_rate / to_rate)
        else Returned 1
      end
    end.

Definition convert_currency (env : Env) (amount : Q)
    (from_currency to_currency : string) (transaction_date : option date)
    (precision : Z) : outcome Q :=
  if String.eqb from_currency to_currency then Returned (py_round amount precision)
  else
    let* rate := get_exchange_rate env from_currency to_currency transaction_date in
    let converted := amount * rate in
    Returned (py_round converted precision).

End Currency.

(** ** compliance/doctype/tax_treaty/tax_treaty.py *)

Module Treaty.

(** Get list of EU member states. *)
Definition get_eu_countries : list string := [
  "Austria"; "Belgium"; "Bulgaria"; "Croatia"; "Cyprus"; "Czech Republic";
  "Denmark"; "Estonia"; "Finland"; "France"; "Germany"; "Greece"; "Hungary";
  "Ireland"; "Italy"; "Latvia"; "Lithuania"; "Luxembourg"; "Malta"; "Netherlands";
  "Poland"; "Portugal"; "Romania"; "Slovakia"; "Slovenia"; "Spain"; "Sweden"
].

(** [c in countries] *)
Definition is_in (c : string) (countries : list string) : bool :=
  existsb (String.eqb c) countries.

(** The columns [get_applicable_treaty] selects. *)
Record TreatyRow : Type := {
  row_name : string;
  row_treaty_name : string;
  row_treaty_code : string;
  row_reduced_rate : option Q;
  row_service_fee_rate : option Q;
  row_independent_services_rate : option Q;
  row_certificate_required : bool;
  row_form_required : option string;
  row_minimum_stay_days : option Z;
  row_permanent_establishment_threshold : option Z
}.

Definition select_columns (t : TaxTreaty) : TreatyRow := {|
  row_name := name t;
  row_treaty_name := treaty_name t;
  row_treaty_code := treaty_code t;
  row_reduced_rate := reduced_rate t;
  row_service_fee_rate := service_fee_rate t;
  row_independent_services_rate := independent_services_rate t;
  row_certificate_required := certificate_required t;
  row_form_required := form_required t;
  row_minimum_stay_days := minimum_stay_days t;
  row_permanent_establishment_threshold := permanent_establishment_threshold t
|}.

Definition is_active (s : TreatyStatus) : bool :=
  match s with
  | Active => true
  | _ => false
  end.

(** The WHERE clause. *)
Definition where_clause (source_country target_country : string) (now : date)
    (t : TaxTreaty) : bool :=
  is_active (status t)
  && ((String.eqb (country_1 t) source_country && String.eqb (country_2 t) target_country)
      || (String.eqb (country_1 t) target_country && String.eqb (country_2 t) source_country))
  && match expiry_date t with
     | None => true
     | Some e => (now <=? e)%Z
     end.

(** [a < b] on nullable dates, NULL below every date. *)
Definition date_before (a b : option date) : bool :=
  match a, b with
  | None, Some _ => true
  | Some x, Some y => (x <? y)%Z
  | _, _ => false
  end.

(** ORDER BY effective_date DESC LIMIT 1: the row with the latest effective
    date, the first such row of the table when several share it. *)
Definition later_treaty (best : option TaxTreaty) (t : TaxTreaty) : option TaxTreaty :=
  match best with
  | None => Some t
  | Some b => if date_before (effective_date b) (effective_date t) then Some t else Some b
  end.

Definition get_applicable_treaty (env : Env) (source_country target_country : string)
  : option TreatyRow :=
  let rows := List.filter (where_clause source_country target_country (today env))
                          (tax_treaties env) in
  option_map select_columns (fold_left later_treaty rows None).

(** [treaty.get(field)] for a rate field: the column when it was selected and
    is not NULL. *)
Definition row_get (treaty : TreatyRow) (field : string) : option Q :=
  let columns : gmap string (option Q) :=
    list_to_map [
      ("reduced_rate", row_reduced_rate treaty);
      ("service_fee_rate", row_service_fee_rate treaty);
      ("independent_services_rate", row_independent_services_rate treaty)
    ] in
  mjoin (columns !! field).

Definition rate_fields : gmap string (list string) :=
  list_to_map [
    ("services", ["independent_services_rate"; "service_fee_rate"; "reduced_rate"]);
    ("dividends", ["dividend_rate"; "reduced_rate"]);
    ("interest", ["interest_rate"; "reduced_rate"]);
    ("royalties", ["royalty_rate"; "reduced_rate"])
  ].

(** The [for field in ...] loop: the first field that is not None. *)
Fixpoint first_rate (treaty : TreatyRow) (fields : list string) : option Q :=
  match fields with
  | [] => None
  | field :: rest =>
      match row_get treaty field with
      | Some rate => Some rate
      | None => first_rate treaty rest
      end
  end.

(** [rate or 0] *)
Definition or_zero (rate : option Q) : Q :=
  match rate with
  | Some r => if truthy r then r else 0
  | None => 0
  end.

(** Default rates by country (without treaty). *)
Definition default_rates : gmap string Q :=
  list_to_map [
    ("United States", 30); ("United Kingdom", 20); ("India", 10); ("China", 10);
    ("Brazil", 15); ("Australia", 30); ("Canada", 25); ("Japan", 20);
    ("South Korea", 20); ("Russia", 20)
  ].

(** The dict [get_withholding_rate] returns.  [None] is a key the dict does
    not have.  [ri_default_rate] is the key ["default_rate"] that
    [TaxCalculator._calculate_withholding] reads. *)
Record RateInfo : Type := {
  ri_rate : Q;
  ri_treaty_applied : bool;
  ri_eu_member : option bool;
  ri_treaty_name : option string;
  ri_treaty_code : option string;
  ri_certificate_required : option bool;
  ri_form_required : option (option string);
  ri_default_rate : option Q;
  ri_notes : string
}.

Definition get_withholding_rate (env : Env)
    (freelancer_country company_country income_type : string) : outcome RateInfo :=
  (* Check for EU countries (no withholding within EU) *)
  let eu_countries := get_eu_countries in
  if is_in freelancer_country eu_countries && is_in company_country eu_countries then
    Returned {|
      ri_rate := 0;
      ri_treaty_applied := false;
      ri_eu_member := Some true;
      ri_treaty_name := None;
      ri_treaty_code := None;
      ri_certificate_required := None;
      ri_form_required := None;
      ri_default_rate := None;
      ri_notes := "No withholding tax within EU member states"
    |}
  else
    (* Look for applicable treaty *)
    match get_applicable_treaty env freelancer_country company_country with
    | Some treaty =>
        let rate := first_rate treaty (default ["reduced_rate"] (rate_fields !! income_type)) in
        Returned {|
          ri_rate := or_zero rate;
          ri_treaty_applied := true;
          ri_eu_member := None;
          ri_treaty_name := Some (row_treaty_name treaty);
          ri_treaty_code := Some (row_treaty_code treaty);
          ri_certificate_required := Some (row_certificate_required treaty);
          ri_form_required := Some (row_form_required treaty);
          ri_default_rate := None;
          ri_notes := "Rate under " ++ row_treaty_name treaty
        |}
    | None =>
        Returned {|
          ri_rate := default 30 (default_rates !! freelancer_country);
          ri_treaty_applied := false;
          ri_eu_member := None;
          ri_treaty_name := None;
          ri_treaty_code := None;
          ri_certificate_required := None;
          ri_form_required := None;
          ri_default_rate := None;
          ri_notes := "No applicable treaty found. Default withholding rate applied."
        |}
    end.

End Treaty.

(** ** compliance/doctype/vat_configuration/vat_configuration.py *)

Module Vat.

(** The dict [get_vat_rate] returns. *)
Record VatInfo : Type := {
  vi_rate : option Q;
  vi_reverse_charge : bool;
  vi_is_eu : option bool;
  vi_notes : string
}.

(** [frappe.db.get_value("VAT Configuration", country, [...], as_dict=True)] *)
Definition get_config (env : Env) (c : string) : option VATConfiguration :=
  List.find (fun cfg => String.eqb (country cfg) c) (vat_configurations env).

Definition get_vat_rate (env : Env) (c service_type : string) (is_b2b : bool)
  : VatInfo :=
  match get_config env c with
  | None =>
      (* Return default for unknown countries *)
      {| vi_rate := Some 0;
         vi_reverse_charge := false;
         vi_is_eu := None;
         vi_notes := "No VAT configuration found for " ++ c |}
  | Some config =>
      (* B2B cross-border within EU uses reverse charge *)
      if is_b2b && reverse_charge_b2b config then
        {| vi_rate := Some 0;
           vi_reverse_charge := true;
           vi_is_eu := Some (is_eu_member config);
           vi_notes := "Reverse charge applies - VAT shifted to recipient" |}
      else
        (* Get rate based on service type *)
        let rate_map : gmap string (option Q) :=
          list_to_map [
            ("standard", vat_standard_rate config);
            ("reduced", reduced_rate_1 config);
            ("digital", py_or (digital_services_rate config) (vat_standard_rate config));
            ("professional", py_or (professional_services_rate config) (vat_standard_rate config))
          ] in
        {| vi_rate := default (vat_standard_rate config) (rate_map !! service_type);
           vi_reverse_charge := false;
           vi_is_eu := Some (is_eu_member config);
           vi_notes := "Standard " ++ service_type ++ " rate for " ++ c |}
  end.

End Vat.

(** ** utils/tax_calculations.py *)

Module Calc.

Import Treaty Vat.

(** The attributes of a [TaxCalculator] instance. *)
Record TaxCalculator : Type := {
  freelancer_country : string;
  company_country : string;
  is_b2b : bool;
  transaction_date : date;
  eu_countries : list string;
  is_freelancer_eu : bool;
  is_company_eu : bool;
  is_cross_border : bool
}.

(** [TaxCalculator.__init__] *)
Definition TaxCalculator_init (env : Env) (freelancer_country company_country : string)
    (is_b2b : bool) (transaction_date : option date) : TaxCalculator :=
  let eu_countries := get_eu_countries in
  {| freelancer_country := freelancer_country;
     company_country := company_country;
     is_b2b := is_b2b;
     transaction_date := default (today env) transaction_date;
     eu_countries := eu_countries;
     is_freelancer_eu := is_in freelancer_country eu_countries;
     is_company_eu := is_in company_country eu_countries;
     is_cross_border := negb (String.eqb freelancer_country company_country) |}.

(** The dict [_calculate_withholding] returns; [None] is a missing key. *)
Record WithholdingTax : Type := {
  wt_rate : Q;
  wt_amount : Q;
  wt_treaty_applied : bool;
  wt_treaty_name : option (option string);
  wt_certificate_required : option bool;
  wt_notes : string
}.

(** The dict [_calculate_vat] returns. *)
Record VatResult : Type := {
  vat_rate : Q;
  vat_amount : Q;
  vat_reverse_charge : bool;
  vat_notes : string
}.

(** An entry of [result["components"]]. *)
Record Component : Type := {
  comp_type : string;
  comp_rate : Q;
  comp_amount : Q;
  comp_reverse_charge : option bool;
  comp_deductible : bool
}.

(** The dict [calculate_all_taxes] returns. *)
Record Result : Type := {
  gross_amount : Q;
  res_freelancer_country : string;
  res_company_country : string;
  is_eu_freelancer : bool;
  res_is_cross_border : bool;
  res_transaction_date : date;
  components : list Component;
  warnings : list string;
  compliance_notes : list string;
  withholding_tax : WithholdingTax;
  vat : VatResult;
  gross_with_vat : Q;
  total_deductions : Q;
  net_payable : Q
}.

(** [rate_info["notes"] = notes] *)
Definition set_notes (rate_info : RateInfo) (notes : string) : RateInfo := {|
  ri_rate := ri_rate rate_info;
  ri_treaty_applied := ri_treaty_applied rate_info;
  ri_eu_member := ri_eu_member rate_info;
  ri_treaty_name := ri_treaty_name rate_info;
  ri_treaty_code := ri_treaty_code rate_info;
  ri_certificate_required := ri_certificate_required rate_info;
  ri_form_required := ri_form_required rate_info;
  ri_default_rate := ri_default_rate rate_info;
  ri_notes := notes
|}.

(** The test [rate > 0 and not has_certificate and
    rate_info.get("certificate_required")]. *)
Definition certificate_missing (rate : Q) (has_certificate : bool)
    (rate_info : RateInfo) : bool :=
  Qpos_bool rate && negb has_certificate
  && default false (ri_certificate_required rate_info).

Definition _calculate_withholding (env : Env) (self : TaxCalculator)
    (amount : Q) (has_certificate : bool) : outcome WithholdingTax :=
  (* EU to EU: No withholding *)
  if is_freelancer_eu self && is_company_eu self then
    Returned {| wt_rate := 0;
                wt_amount := 0;
                wt_treaty_applied := false;
                wt_treaty_name := None;
                wt_certificate_required := None;
                wt_notes := "No withholding tax between EU member states" |}
  (* Same country: No withholding (local taxation) *)
  else if negb (is_cross_border self) then
    Returned {| wt_rate := 0;
                wt_amount := 0;
                wt_treaty_applied := false;
                wt_treaty_name := None;
                wt_certificate_required := None;
                wt_notes := "Domestic payment - no withholding" |}
  else
    (* Get treaty rate *)
    let* rate_info :=
      get_withholding_rate env (freelancer_country self) (company_country self)
                           "services" in
    let rate := ri_rate rate_info in
    (* If no certificate, may need to use higher rate *)
    let missing := certificate_missing rate has_certificate rate_info in
    (* Use default rate without treaty *)
    let rate := if missing then default rate (ri_default_rate rate_info) else rate in
    let rate_info :=
      if missing
      then set_notes rate_info (ri_notes rate_info ++ " (Certificate required for reduced rate)")
      else rate_info in
    Returned {| wt_rate := rate;
                wt_amount := py_round (amount * rate / 100) 2;
                wt_treaty_applied := ri_treaty_applied rate_info;
                wt_treaty_name := Some (ri_treaty_name rate_info);
                wt_certificate_required :=
                  Some (default false (ri_certificate_required rate_info));
                wt_notes := ri_notes rate_info |}.

Definition _calculate_vat (env : Env) (self : TaxCalculator)
    (amount : Q) (service_type : string) : outcome VatResult :=
  (* Cross-border B2B within EU: Reverse charge *)
  if is_cross_border self && is_freelancer_eu self && is_company_eu self && is_b2b self then
    Returned {| vat_rate := 0;
                vat_amount := 0;
                vat_reverse_charge := true;
                vat_notes := "EU B2B reverse charge mechanism - VAT accounted by recipient" |}
  (* Non-EU to EU: Generally no VAT on services (place of supply = customer) *)
  else if negb (is_freelancer_eu self) && is_company_eu self && is_b2b self then
    Returned {| vat_rate := 0;
                vat_amount := 0;
                vat_reverse_charge := true;
                vat_notes := "Import of services - reverse charge applies" |}
  (* EU to non-EU: Export of services, generally 0% *)
  else if is_freelancer_eu self && negb (is_company_eu self) then
    Returned {| vat_rate := 0;
                vat_amount := 0;
                vat_reverse_charge := false;
                vat_notes := "Export of services outside EU - 0% VAT" |}
  else
    (* Domestic transaction or B2C: Apply local VAT *)
    let vat_info := get_vat_rate env (freelancer_country self) service_type (is_b2b self) in
    match vi_rate vat_info with
    | None => Raised TypeError  (* amount * None *)
    | Some rate =>
        Returned {| vat_rate := rate;
                    vat_amount := py_round (amount * rate / 100) 2;
                    vat_reverse_charge := false;
                    vat_notes := "Standard VAT rate for " ++ freelancer_country self |}
    end.

Definition REVERSE_CHARGE_NOTE : string :=
  "REVERSE CHARGE: Under EU VAT Directive Article 196, the recipient is liable to account for VAT. Invoice should state 'Reverse charge' and show 0% VAT.".

Definition WITHHOLDING_NOTE (env : Env) (rate : Q) : string :=
  "WITHHOLDING TAX: " ++ str_number env rate
  ++ "% will be withheld. This should be reported to tax authorities and a certificate provided to the freelancer.".

(** [withholding_tax.get('treaty_name', 'applicable treaty')], printed. *)
Definition printed_treaty_name (w : WithholdingTax) : string :=
  match wt_treaty_name w with
  | None => "applicable treaty"
  | Some None => "None"
  | Some (Some n) => n
  end.

Definition TREATY_NOTE (w : WithholdingTax) : string :=
  "TAX TREATY: Reduced rate applied under " ++ printed_treaty_name w
  ++ ". Ensure tax residency certificate is on file.".

Definition INTRA_COMMUNITY_NOTE : string :=
  "EU INTRA-COMMUNITY: This is an intra-Community supply of services. Report in EC Sales List if required.".

Definition LARGE_PAYMENT_NOTE : string :=
  "LARGE PAYMENT: Amounts over €10,000 may have additional reporting requirements. Verify compliance with anti-money laundering regulations.".

(** [x > y] as a test. *)
Definition Qgt_bool (x y : Q) : bool :=
  match Qcompare x y with
  | Gt => true
  | _ => false
  end.

Definition _get_compliance_notes (env : Env) (self : TaxCalculator) (result : Result)
  : list string :=
  let notes : list string := [] in
  let notes :=
    if vat_reverse_charge (vat result) then (notes ++ [REVERSE_CHARGE_NOTE])%list else notes in
  let notes :=
    if Qpos_bool (wt_rate (withholding_tax result)) then
      let notes := (notes ++ [WITHHOLDING_NOTE env (wt_rate (withholding_tax result))])%list in
      if wt_treaty_applied (withholding_tax result)
      then (notes ++ [TREATY_NOTE (withholding_tax result)])%list
      else notes
    else notes in
  let notes :=
    if is_freelancer_eu self && is_company_eu self && is_cross_border self
    then (notes ++ [INTRA_COMMUNITY_NOTE])%list else notes in
  (* Large payment warning *)
  let notes :=
    if Qgt_bool (gross_amount result) 10000 then (notes ++ [LARGE_PAYMENT_NOTE])%list else notes in
  notes.

(** [result["compliance_notes"] = notes] *)
Definition set_compliance_notes (result : Result) (notes : list string) : Result := {|
  gross_amount := gross_amount result;
  res_freelancer_country := res_freelancer_country result;
  res_company_country := res_company_country result;
  is_eu_freelancer := is_eu_freelancer result;
  res_is_cross_border := res_is_cross_border result;
  res_transaction_date := res_transaction_date result;
  components := components result;
  warnings := warnings result;
  compliance_notes := notes;
  withholding_tax := withholding_tax result;
  vat := vat result;
  gross_with_vat := gross_with_vat result;
  total_deductions := total_deductions result;
  net_payable := net_payable result
|}.

Definition calculate_all_taxes (env : Env) (self : TaxCalculator)
    (gross_amount : Q) (service_type : string) (has_tax_certificate : bool)
  : outcome Result :=
  (* Calculate withholding tax *)
  let* withholding := _calculate_withholding env self gross_amount has_tax_certificate in
  let components :=
    if Qpos_bool (wt_rate withholding)
    then [ {| comp_type := "withholding_tax";
              comp_rate := wt_rate withholding;
              comp_amount := wt_amount withholding;
              comp_reverse_charge := None;
              comp_deductible := true |} ]
    else [] in
  (* Calculate VAT *)
  let* vat := _calculate_vat env self gross_amount service_type in
  let components :=
    if Qpos_bool (vat_amount vat) || vat_reverse_charge vat
    then (components ++ [ {| comp_type := "vat";
                             comp_rate := vat_rate vat;
                             comp_amount := vat_amount vat;
                             comp_reverse_charge := Some (vat_reverse_charge vat);
                             comp_deductible := false |} ])%list
    else components in
  (* Calculate net amounts *)
  let gross_with_vat := gross_amount + vat_amount vat in
  let total_deductions := wt_amount withholding in
  let net_payable := gross_with_vat - total_deductions in
  (* If reverse charge, net payable is just gross *)
  let net_payable :=
    if vat_reverse_charge vat then gross_amount - wt_amount withholding else net_payable in
  let result := {|
    gross_amount := gross_amount;
    res_freelancer_country := freelancer_country self;
    res_company_country := company_country self;
    is_eu_freelancer := is_freelancer_eu self;
    res_is_cross_border := is_cross_border self;
    res_transaction_date := transaction_date self;
    components := components;
    warnings := [];
    compliance_notes := [];
    withholding_tax := withholding;
    vat := vat;
    gross_with_vat := gross_with_vat;
    total_deductions := total_deductions;
    net_payable := net_payable
  |} in
  (* Add compliance notes *)
  Returned (set_compliance_notes result (_get_compliance_notes env self result)).

End Calc.

(** ** Seed data of the repository and scenario environments *)

Module Fixtures.

Import Treaty Vat Calc.

(** A treaty document as the fixtures give it: keys the dict omits are NULL. *)
Definition treaty (code nm c1 c2 : string)
    (std red div int roy fee ind : option Q) (form : option string)
    (pe : option Z) : TaxTreaty := {|
  name := code;
  treaty_code := code;
  treaty_name := nm;
  country_1 := c1;
  country_2 := c2;
  effective_date := None;
  expiry_date := None;
  status := Active;
  standard_rate := std;
  reduced_rate := red;
  dividend_rate := div;
  interest_rate := int;
  royalty_rate := roy;
  service_fee_rate := fee;
  independent_services_rate := ind;
  certificate_required := true;
  form_required := form;
  minimum_stay_days := Some 183%Z;
  permanent_establishment_threshold := pe
|}.

(** [get_default_tax_treaties()] *)
Definition get_default_tax_treaties : list TaxTreaty := [
  treaty "NL-US" "Netherlands-United States Income Tax Treaty"
         "Netherlands" "United States"
         (Some 30) (Some 15) (Some 15) (Some 0) (Some 0) (Some 0) (Some 0)
         (Some "W-8BEN") (Some 183%Z);
  treaty "NL-UK" "Netherlands-United Kingdom Double Taxation Convention"
         "Netherlands" "United Kingdom"
         (Some 20) (Some 0) (Some 10) (Some 0) (Some 0) (Some 0) (Some 0)
         None None;
  treaty "DE-US" "Germany-United States Income Tax Treaty"
         "Germany" "United States"
         (Some 30) (Some 15) (Some 15) (Some 0) (Some 0) (Some 0) None
         (Some "W-8BEN") None;
  treaty "NL-IN" "Netherlands-India Double Taxation Avoidance Agreement"
         "Netherlands" "India"
         (Some 40) (Some 10) (Some 10) (Some 10) (Some 10) (Some 10) None
         None None;
  treaty "DE-UK" "Germany-United Kingdom Double Taxation Convention"
         "Germany" "United Kingdom"
         (Some 20) (Some 0) (Some 10) (Some 0) (Some 0) None None
         None None
].

(** A VAT configuration as the fixtures give it; the per-service rates are
    not part of the seed data. *)
Definition vat_config (c : string) (eu : bool) (std red1 : option Q) (rc : bool)
  : VATConfiguration := {|
  country := c;
  is_eu_member := eu;
  vat_standard_rate := std;
  reduced_rate_1 := red1;
  b2b_services_rate := None;
  digital_services_rate := None;
  professional_services_rate := None;
  reverse_charge_b2b := rc
|}.

(** [get_default_vat_configurations()] *)
Definition get_default_vat_configurations : list VATConfiguration := [
  vat_config "Netherlands" true (Some 21) (Some 9) true;
  vat_config "Germany" true (Some 19) (Some 7) true;
  vat_config "France" true (Some 20) (Some 10) true;
  vat_config "Belgium" true (Some 21) (Some 12) true;
  vat_config "Spain" true (Some 21) (Some 10) true;
  vat_config "Italy" true (Some 22) (Some 10) true;
  vat_config "Poland" true (Some 23) (Some 8) true;
  vat_config "Ireland" true (Some 23) (Some (135 # 10)) true;
  vat_config "Sweden" true (Some 25) (Some 12) true;
  vat_config "Denmark" true (Some 25) None true;
  vat_config "United Kingdom" false (Some 20) (Some 5) false;
  vat_config "Switzerland" false (Some (81 # 10)) (Some (26 # 10)) false;
  vat_config "United States" false (Some 0) None false
].

(** Decimal digits of [num / den] after the point, for [0 <= num < den]. *)
Fixpoint fraction_digits (fuel : nat) (num den : Z) : string :=
  match fuel with
  | O => ""
  | S fuel' =>
      if (num =? 0)%Z then ""
      else pretty (num * 10 / den)%Z ++ fraction_digits fuel' ((num * 10) mod den)%Z den
  end.

(** A number printed the way Python prints a float with a short decimal
    expansion: [15.0], [13.5]. *)
Definition str_float (q : Q) : string :=
  let n := Z.abs (Qnum q) in
  let d := Zpos (Qden q) in
  (if (Qnum q <? 0)%Z then "-" else "")
  ++ pretty (n / d)%Z ++ "."
  ++ (if (n mod d =? 0)%Z then "0" else fraction_digits 17 (n mod d)%Z d).

(** The seeded site, with the Currency Exchange table out of reach (the
    offline setting the mock rates are for). *)
Definition seeded_env : Env := {|
  currency_exchange := None;
  tax_treaties := get_default_tax_treaties;
  vat_configurations := get_default_vat_configurations;
  today := 20396%Z;
  str_number := str_float
|}.

(** A Netherlands-Canada treaty whose only rate is a reduced rate of 15%,
    granted on a residency certificate. *)
Definition NL_CA : TaxTreaty :=
  treaty "CA-NL" "Netherlands-Canada Tax Convention" "Netherlands" "Canada"
         (Some 25) (Some 15) None None None None None None None.

(** A treaty that carries a standard rate and nothing else. *)
Definition NL_JP_standard_only : TaxTreaty :=
  treaty "JP-NL" "Netherlands-Japan Tax Convention" "Netherlands" "Japan"
         (Some 20) None None None None None None None None.

(** A treaty with no rate at all. *)
Definition NL_BR_no_rate : TaxTreaty :=
  treaty "BR-NL" "Netherlands-Brazil Tax Convention" "Netherlands" "Brazil"
         None None None None None None None None None.

Definition extended_env : Env := {|
  currency_exchange := None;
  tax_treaties := get_default_tax_treaties ++ [NL_CA; NL_JP_standard_only; NL_BR_no_rate];
  vat_configurations := get_default_vat_configurations;
  today := 20396%Z;
  str_number := str_float
|}.

End Fixtures.

(** ** The rules as the specification words them *)

Module Spec.

Import Treaty Vat Calc.

(** Specification 4.2, [resolve_rate]: the income-type-specific field first,
    then [reduced_rate], then [standard_rate]; [NoRateDefined] when all three
    are absent. *)
Definition NoRateDefined : exn := PyExn "NoRateDefined".

Definition specific_rate (t : TaxTreaty) (income_type : string) : option Q :=
  if String.eqb income_type "services" then
    match independent_services_rate t with
    | Some r => Some r
    | None => service_fee_rate t
    end
  else if String.eqb income_type "dividends" then dividend_rate t
  else if String.eqb income_type "interest" then interest_rate t
  else if String.eqb income_type "royalties" then royalty_rate t
  else None.

Definition resolve_rate (t : TaxTreaty) (income_type : string) : outcome Q :=
  match specific_rate t income_type with
  | Some r => Returned r
  | None =>
      match reduced_rate t with
      | Some r => Returned r
      | None =>
          match standard_rate t with
          | Some r => Returned r
          | None => Raised NoRateDefined
          end
      end
  end.

(** Specification 4.3, [resolve_vat]: the four rules in their order; the
    rate of rule 4 is the payee country's rate for the service type. *)
Definition resolve_vat (env : Env) (payer_country payee_country : string)
    (is_b2b : bool) (service_type : string) : option Q * bool :=
  let payer_eu := is_in payer_country get_eu_countries in
  let payee_eu := is_in payee_country get_eu_countries in
  let cross_border := negb (String.eqb payer_country payee_country) in
  if payer_eu && payee_eu && cross_border && is_b2b then (Some 0, true)
  else if payee_eu && negb payer_eu && is_b2b then (Some 0, false)
  else if negb payee_eu && payer_eu && is_b2b then (Some 0, true)
  else (vi_rate (get_vat_rate env payee_country service_type is_b2b), false).

(** Specification 4.4 step 3: the treaty rate when a treaty exists and the
    certificate is on file or not required, the payee country's default
    withholding rate otherwise. *)
Definition default_withholding_rate (payee_country : string) : Q :=
  default 30 (default_rates !! payee_country).

Definition withholding_rate (treaty : option TreatyRow) (treaty_rate : Q)
    (payee_country : string) (has_tax_certificate : bool) : Q :=
  match treaty with
  | Some t =>
      if has_tax_certificate || negb (row_certificate_required t)
      then treaty_rate
      else default_withholding_rate payee_country
  | None => default_withholding_rate payee_country
  end.

End Spec.

(** ** utils/currency.py, continued *)

Module CurrencyApi.

Import Currency.

(** [get_all_exchange_rates(base_currency)] *)
Definition get_all_exchange_rates (base_currency : string) : gmap string Q :=
  (* Return mock rates for offline/testing *)
  if String.eqb base_currency "EUR" then MOCK_EXCHANGE_RATES
  else
    (* Convert all rates to the requested base *)
    let base_rate := default 1 (MOCK_EXCHANGE_RATES !! base_currency) in
    (fun rate => rate / base_rate) <$> MOCK_EXCHANGE_RATES.

(** The dict [get_exchange_rate_api] returns. *)
Record RateReply : Type := {
  rr_from_currency : string;
  rr_to_currency : string;
  rr_rate : Q;
  rr_date : date;
  rr_source : string
}.

Definition get_exchange_rate_api (env : Env) (from_currency to_currency : string)
    (transaction_date : option date) : outcome RateReply :=
  let* rate := get_exchange_rate env from_currency to_currency transaction_date in
  Returned {| rr_from_currency := from_currency;
              rr_to_currency := to_currency;
              rr_rate := rate;
              rr_date := default (today env) transaction_date;
              rr_source := "system" |}.

(** The dict [convert_amount_api] returns. *)
Record ConversionReply : Type := {
  original_amount : Q;
  cr_from_currency : string;
  converted_amount : Q;
  cr_to_currency : string;
  exchange_rate : Q;
  cr_date : date
}.

Definition convert_amount_api (env : Env) (amount : Q)
    (from_currency to_currency : string) (transaction_date : option date)
  : outcome ConversionReply :=
  let* rate := get_exchange_rate env from_currency to_currency transaction_date in
  let* converted :=
    convert_currency env amount from_currency to_currency transaction_date 2 in
  Returned {| original_amount := amount;
              cr_from_currency := from_currency;
              converted_amount := converted;
              cr_to_currency := to_currency;
              exchange_rate := rate;
              cr_date := default (today env) transaction_date |}.

End CurrencyApi.

(** ** The [TaxTreaty] controller: validation hooks *)

Module TaxTreatyDoc.

Import Calc.

(** [frappe.throw] *)
Definition ValidationError : exn := PyExn "ValidationError".

(** Ensure different countries are selected. *)
Definition validate_countries (self : TaxTreaty) : outcome unit :=
  if String.eqb (country_1 self) (country_2 self)
  then Raised ValidationError
  else Returned tt.

(** Validate effective and expiry dates; the value returned is the list of
    messages shown with [frappe.msgprint]. *)
Definition validate_dates (env : Env) (self : TaxTreaty) : outcome (list string) :=
  let ordered :=
    match effective_date self, expiry_date self with
    | Some effective, Some expiry => negb (expiry <? effective)%Z
    | _, _ => true
    end in
  if negb ordered then Raised ValidationError
  else
    (* Check if expired *)
    let expired :=
      match expiry_date self with
      | Some expiry => (expiry <? today env)%Z
      | None => false
      end in
    if expired && Treaty.is_active (status self)
    then Returned ["Treaty expiry date has passed. Consider updating status."]
    else Returned [].

(** The fields the loop of [validate_rates] reads, in its order. *)
Definition rate_field_values (self : TaxTreaty) : list (option Q) := [
  standard_rate self; reduced_rate self; dividend_rate self; interest_rate self;
  royalty_rate self; service_fee_rate self; independent_services_rate self
].

(** The loop: the first rate below 0 or above 100 throws. *)
Fixpoint check_rates (rates : list (option Q)) : outcome unit :=
  match rates with
  | [] => Returned tt
  | None :: rest => check_rates rest
  | Some rate :: rest =>
      if Qgt_bool 0 rate || Qgt_bool rate 100
      then Raised ValidationError
      else check_rates rest
  end.

(** Validate tax rates are reasonable; returns the messages shown. *)
Definition validate_rates (env : Env) (self : TaxTreaty) : outcome (list string) :=
  let* _ := check_rates (rate_field_values self) in
  (* Reduced rate should typically be less than standard *)
  match reduced_rate self, standard_rate self with
  | Some reduced, Some standard =>
      if truthy reduced && truthy standard && Qgt_bool reduced standard
      then Returned [ "Reduced rate (" ++ str_number env reduced
                      ++ "%) is higher than standard rate (" ++ str_number env standard
                      ++ "%). Please verify." ]
      else Returned []
  | _, _ => Returned []
  end.

End TaxTreatyDoc.

(** ** vat_configuration.py, continued *)

Module VatMore.

Import Vat.

(** EU countries as of 2026 *)
Definition EU_MEMBER_STATES : list string := [
  "Austria"; "Belgium"; "Bulgaria"; "Croatia"; "Cyprus"; "Czech Republic";
  "Denmark"; "Estonia"; "Finland"; "France"; "Germany"; "Greece"; "Hungary";
  "Ireland"; "Italy"; "Latvia"; "Lithuania"; "Luxembourg"; "Malta"; "Netherlands";
  "Poland"; "Portugal"; "Romania"; "Slovakia"; "Slovenia"; "Spain"; "Sweden"
].

(** [VATConfiguration.set_eu_status]: the document with [is_eu_member] set. *)
Definition set_eu_status (self : VATConfiguration) : VATConfiguration := {|
  country := country self;
  is_eu_member := Treaty.is_in (country self) EU_MEMBER_STATES;
  vat_standard_rate := vat_standard_rate self;
  reduced_rate_1 := reduced_rate_1 self;
  b2b_services_rate := b2b_services_rate self;
  digital_services_rate := digital_services_rate self;
  professional_services_rate := professional_services_rate self;
  reverse_charge_b2b := reverse_charge_b2b self
|}.



End VatMore.

(** ** tax_calculations.py, continued *)

Module CalcMore.

(** A [datetime.date]. *)
Record PyDate : Type := {
  d_year : Z;
  d_month : Z;
  d_day : Z
}.

Definition ValueError : exn := PyExn "ValueError".
Definition OverflowError : exn := PyExn "OverflowError".
Definition ZeroDivisionError : exn := PyExn "ZeroDivisionError".
Definition DoesNotExistError : exn := PyExn "DoesNotExistError".

Definition is_leap (y : Z) : bool :=
  ((y mod 4 =? 0) && (negb (y mod 100 =? 0) || (y mod 400 =? 0)))%Z.

Definition days_in_month (y m : Z) : Z :=
  if (m =? 2)%Z then (if is_leap y then 29 else 28)%Z
  else if ((m =? 4) || (m =? 6) || (m =? 9) || (m =? 11))%Z then 30%Z
  else 31%Z.

(** The constructor [date(year, month, day)]: a year that does not fit a C
    int overflows, a field out of range is a [ValueError]. *)
Definition py_date (y m d : Z) : outcome PyDate :=
  if negb ((- 2147483648 <=? y) && (y <=? 2147483647))%Z then Raised OverflowError
  else if ((1 <=? y) && (y <=? 9999) && (1 <=? m) && (m <=? 12)
           && (1 <=? d) && (d <=? days_in_month y m))%Z
  then Returned {| d_year := y; d_month := m; d_day := d |}
  else Raised ValueError.

(** The day after a date, as the calendar has it. *)
Definition next_day (dt : PyDate) : PyDate :=
  if (d_day dt <? days_in_month (d_year dt) (d_month dt))%Z
  then {| d_year := d_year dt; d_month := d_month dt; d_day := (d_day dt + 1)%Z |}
  else if (d_month dt <? 12)%Z
  then {| d_year := d_year dt; d_month := (d_month dt + 1)%Z; d_day := 1%Z |}
  else {| d_year := (d_year dt + 1)%Z; d_month := 1%Z; d_day := 1%Z |}.

(** [get_tax_year_dates(country, year)]; [this_year] is
    [date.today().year]. *)
Definition get_tax_year_dates (this_year : Z) (c : string) (year : option Z)
  : outcome (PyDate * PyDate) :=
  let year := default this_year year in
  (* UK uses April 6 - April 5 *)
  if String.eqb c "United Kingdom" then
    let* s := py_date year 4 6 in
    let* e := py_date (year + 1) 4 5 in
    Returned (s, e)
  (* Australia uses July 1 - June 30 *)
  else if String.eqb c "Australia" then
    let* s := py_date year 7 1 in
    let* e := py_date (year + 1) 6 30 in
    Returned (s, e)
  (* India uses April 1 - March 31 *)
  else if String.eqb c "India" then
    let* s := py_date year 4 1 in
    let* e := py_date (year + 1) 3 31 in
    Returned (s, e)
  (* Default: Calendar year *)
  else
    let* s := py_date year 1 1 in
    let* e := py_date year 12 31 in
    Returned (s, e).

(** The fields of a [Freelancer] document that
    [estimate_annual_tax_burden] reads. *)
Record FreelancerDoc : Type := {
  tax_residency_country : option string;
  vat_registered : bool
}.

(** An entry of [income_tax_rates]; the fallback entry has no marginal rate. *)
Record IncomeRate : Type := {
  marginal : option Q;
  effective_estimate : Q
}.

(** Base estimates by country (2026 approximations) *)
Definition income_tax_rates : gmap string IncomeRate :=
  list_to_map [
    ("Netherlands", {| marginal := Some (495 # 10); effective_estimate := 35 |});
    ("Germany", {| marginal := Some 45; effective_estimate := 32 |});
    ("France", {| marginal := Some 45; effective_estimate := 30 |});
    ("United Kingdom", {| marginal := Some 45; effective_estimate := 28 |});
    ("United States", {| marginal := Some 37; effective_estimate := 25 |});
    ("Belgium", {| marginal := Some 50; effective_estimate := 35 |});
    ("Spain", {| marginal := Some 47; effective_estimate := 30 |});
    ("Italy", {| marginal := Some 43; effective_estimate := 32 |});
    ("Poland", {| marginal := Some 32; effective_estimate := 20 |});
    ("Ireland", {| marginal := Some 40; effective_estimate := 28 |})
  ].

Definition social_security_rates : gmap string Q :=
  list_to_map [
    ("Netherlands", 2765 # 100); ("Germany", 186 # 10); ("France", 22);
    ("United Kingdom", 9); ("Belgium", 205 # 10); ("Spain", 30); ("Italy", 24);
    ("Poland", 1952 # 100); ("Ireland", 4)
  ].

Record IncomeTaxEstimate : Type := {
  marginal_rate : Q;
  effective_rate : Q;
  income_tax_estimated_amount : Q
}.

Record SocialSecurityEstimate : Type := {
  social_rate : Q;
  social_estimated_amount : Q
}.

Record VatEstimate : Type := {
  ve_registered : bool;
  ve_rate : Q;
  ve_note : string
}.

(** The dict [estimate_annual_tax_burden] returns. *)
Record TaxBurden : Type := {
  tb_freelancer : string;
  tb_country : option string;
  estimated_annual_income : Q;
  income_tax : IncomeTaxEstimate;
  social_security : SocialSecurityEstimate;
  tb_vat : VatEstimate;
  total_estimated_tax_burden : Q;
  effective_total_rate : Q;
  net_after_tax_estimate : Q;
  disclaimer : string
}.

(** [frappe.db.get_value("VAT Configuration", country, "standard_rate")] *)
Definition vat_standard_rate_of (env : Env) (c : option string) : option Q :=
  match c with
  | None => None
  | Some c =>
      match Vat.get_config env c with
      | Some config => vat_standard_rate config
      | None => None
      end
  end.

(** [table.get(country, fallback)] for a country that may be None. *)
Definition get_or {A : Type} (table : gmap string A) (c : option string) (fallback : A) : A :=
  match c with
  | Some c => default fallback (table !! c)
  | None => fallback
  end.

(** [estimate_annual_tax_burden(freelancer, estimated_annual_income)], over
    the [Freelancer] documents of the site. *)
Definition estimate_annual_tax_burden (env : Env)
    (freelancers : gmap string FreelancerDoc)
    (freelancer : string) (estimated_annual_income : Q) : outcome TaxBurden :=
  match freelancers !! freelancer with
  | None => Raised DoesNotExistError
  | Some freelancer_doc =>
      let c := tax_residency_country freelancer_doc in
      let income_rate :=
        get_or income_tax_rates c {| marginal := None; effective_estimate := 30 |} in
      let social_rate := get_or social_security_rates c 15 in
      let income := estimated_annual_income in
      (* Calculations *)
      let estimated_income_tax := income * effective_estimate income_rate / 100 in
      let estimated_social_security := income * social_rate / 100 in
      (* VAT (if registered, need to charge and remit) *)
      let vat_rate :=
        if vat_registered freelancer_doc
        then default 21 (py_or (vat_standard_rate_of env c) (Some 21))
        else 0 in
      if Qeq_bool income 0 then Raised ZeroDivisionError
      else
        Returned {|
          tb_freelancer := freelancer;
          tb_country := c;
          estimated_annual_income := income;
          income_tax := {|
            marginal_rate := default 40 (marginal income_rate);
            effective_rate := effective_estimate income_rate;
            income_tax_estimated_amount := py_round estimated_income_tax 2 |};
          social_security := {|
            social_rate := social_rate;
            social_estimated_amount := py_round estimated_social_security 2 |};
          tb_vat := {|
            ve_registered := vat_registered freelancer_doc;
            ve_rate := vat_rate;
            ve_note := "VAT is collected and remitted, not a personal cost" |};
          total_estimated_tax_burden :=
            py_round (estimated_income_tax + estimated_social_security) 2;
          effective_total_rate :=
            py_round ((estimated_income_tax + estimated_social_security) / income * 100) 1;
          net_after_tax_estimate :=
            py_round (income - estimated_income_tax - estimated_social_security) 2;
          disclaimer :=
            "This is a rough estimate for planning purposes only. Actual tax liability depends on many factors including deductions, allowances, other income, and individual circumstances. Consult a qualified tax professional for accurate advice."
        |}
  end.

End CalcMore.

(** * Properties *)

(** ** Rounding *)

Section Rounding.

Local Open Scope Q_scope.

Lemma round_half_even_bounds x :
  (Qfloor x <= round_half_even x <= Qfloor x + 1)%Z.
Proof.
  unfold round_half_even.
  destruct (Qcompare _ _); [destruct (Z.even _) | | ]; lia.
Qed.

Lemma round_half_even_mono x y :
  x <= y -> (round_half_even x <= round_half_even y)%Z.
Proof.
  intros Hxy.
  pose proof (Qfloor_resp_le x y Hxy) as Hfl.
  destruct (Z.eq_dec (Qfloor x) (Qfloor y)) as [Heq | Hne].
  - unfold round_half_even. rewrite Heq.
    destruct (Qcompare_spec (x - inject_Z (Qfloor y)) (1 # 2)) as [Hx | Hx | Hx],
             (Qcompare_spec (y - inject_Z (Qfloor y)) (1 # 2)) as [Hy | Hy | Hy];
      try destruct (Z.even (Qfloor y)); try lia; exfalso; lra.
  - pose proof (round_half_even_bounds x). pose proof (round_half_even_bounds y). lia.
Qed.

Lemma pow10_pos n : (0 <= n)%Z -> 0 < inject_Z (10 ^ n).
Proof.
  intros Hn. change 0 with (inject_Z 0). rewrite <- Zlt_Qlt.
  apply Z.pow_pos_nonneg; lia.
Qed.

(** [round(_, ndigits)] is monotone. *)
Lemma py_round_mono x y n : x <= y -> py_round x n <= py_round y n.
Proof.
  intros Hxy. unfold py_round.
  destruct (0 <=? n)%Z eqn:Hn.
  - apply Z.leb_le in Hn. pose proof (pow10_pos n Hn) as Hs.
    unfold Qdiv. apply Qmult_le_compat_r.
    + rewrite <- Zle_Qle. apply round_half_even_mono.
      apply Qmult_le_compat_r; [exact Hxy | apply Qlt_le_weak, Hs].
    + apply Qinv_le_0_compat, Qlt_le_weak, Hs.
  - apply Z.leb_gt in Hn.
    assert (Hs : 0 < inject_Z (10 ^ (- n))) by (apply pow10_pos; lia).
    apply Qmult_le_compat_r; [| apply Qlt_le_weak, Hs].
    rewrite <- Zle_Qle. apply round_half_even_mono.
    unfold Qdiv. apply Qmult_le_compat_r; [exact Hxy |].
    apply Qinv_le_0_compat, Qlt_le_weak, Hs.
Qed.

Lemma round_half_even_integer x (k : Z) :
  x == inject_Z k -> round_half_even x = k.
Proof.
  intros Hx. unfold round_half_even.
  assert (Hf : Qfloor x = k) by (rewrite Hx; apply Qfloor_Z).
  rewrite Hf.
  destruct (Qcompare_spec (x - inject_Z k) (1 # 2)) as [H | H | H];
    [exfalso; lra | reflexivity | exfalso; lra].
Qed.

(** A number with at most [p] decimal digits is left as it is. *)
Lemma py_round_exact x p (k : Z) :
  (0 <= p)%Z -> x * inject_Z (10 ^ p) == inject_Z k -> py_round x p == x.
Proof.
  intros Hp Hk. unfold py_round.
  apply Z.leb_le in Hp as Hp'. rewrite Hp'.
  rewrite (round_half_even_integer _ k Hk), <- Hk.
  pose proof (pow10_pos p Hp) as Hs.
  field. intros H0. rewrite H0 in Hs. apply (Qlt_irrefl _ Hs).
Qed.

Lemma py_round_zero_rate amount : py_round (amount * 0 / 100) 2 == 0.
Proof.
  transitivity (amount * 0 / 100); [| field].
  apply (py_round_exact _ 2 0%Z); [lia | field].
Qed.

End Rounding.

(** ** Currency conversion *)

Section CurrencyFacts.

Import Currency Fixtures.

(** Every rate of the mock table is positive, and so is the stand-in 1.0
    used for a code the table does not have: the test [to_rate > 0] of
    [get_exchange_rate] always succeeds. *)
Lemma mock_rate_positive (c : string) :
  Qpos_bool (default 1 (MOCK_EXCHANGE_RATES !! c)) = true.
Proof.
  destruct (MOCK_EXCHANGE_RATES !! c) as [q |] eqn:E; [| reflexivity].
  unfold MOCK_EXCHANGE_RATES in E. apply elem_of_list_to_map_2 in E.
  repeat (apply elem_of_cons in E as [E | E]; [injection E as -> ->; reflexivity |]).
  by apply elem_of_nil in E.
Qed.

Lemma get_exchange_rate_returns env from_currency to_currency d :
  returns (get_exchange_rate env from_currency to_currency d).
Proof.
  unfold get_exchange_rate, returns.
  destruct (String.eqb _ _); [eauto |].
  destruct (direct_rate _ _ _ _); [eauto |].
  destruct (reverse_rate _ _ _ _); [eauto |].
  destruct (Qpos_bool _); eauto.
Qed.

(** C6 (as amended): a same-currency conversion returns the amount rounded to
    [precision] digits; the amount comes back unchanged when it has at most
    [precision] decimal digits. *)
Theorem C6_same_currency_rounds env (x : Q) (C : string) d (p : Z) :
  convert_currency env x C C d p = Returned (py_round x p)
  /\ (forall k : Z, (0 <= p)%Z -> x * inject_Z (10 ^ p) == inject_Z k ->
        py_round x p == x).
Proof.
  split.
  - unfold convert_currency. by rewrite String.eqb_refl.
  - intros k Hp Hk. exact (py_round_exact x p k Hp Hk).
Qed.

Lemma C6_same_currency_rounds_witness :
  convert_currency seeded_env 100 "EUR" "EUR" None 2 = Returned (py_round 100 2)
  /\ py_round 100 2 == 100.
Proof.
  destruct (C6_same_currency_rounds seeded_env 100 "EUR" None 2) as [Hc Hx].
  split; [exact Hc |].
  apply (Hx 10000%Z); [lia | reflexivity].
Defined.

(** C6 as stated fails: 1.234 EUR converted to EUR at precision 2 is 1.23. *)
Lemma C6_counterexample :
  exists y, convert_currency seeded_env (1234 # 1000) "EUR" "EUR" None 2 = Returned y
            /\ ~ y == 1234 # 1000.
Proof.
  eexists. split; [vm_compute; reflexivity |].
  intros H. vm_compute in H. discriminate H.
Qed.

(** C7 (as amended): for a currency code the reference table does not have,
    the lookup never fails; when no stored exchange rate applies it computes
    with 1.0 in place of the missing rate. *)
Theorem C7_unknown_currency_defaults_to_one env (c to : string) d :
  MOCK_EXCHANGE_RATES !! c = None ->
  returns (get_exchange_rate env c to d)
  /\ (forall amount p, returns (convert_currency env amount c to d p))
  /\ (c <> to ->
      direct_rate env c to (default (today env) d) = None ->
      reverse_rate env c to (default (today env) d) = None ->
      get_exchange_rate env c to d
      = Returned (1 / default 1 (MOCK_EXCHANGE_RATES !! to))).
Proof.
  intros Hc. split; [apply get_exchange_rate_returns | split].
  - intros amount p. unfold convert_currency.
    destruct (String.eqb c to); [by eexists |].
    destruct (get_exchange_rate_returns env c to d) as [r ->]. by eexists.
  - intros Hne Hd Hr. unfold get_exchange_rate.
    apply String.eqb_neq in Hne. rewrite Hne, Hd, Hr, Hc.
    by rewrite mock_rate_positive.
Qed.

Lemma C7_unknown_currency_defaults_to_one_witness :
  get_exchange_rate seeded_env "XXX" "USD" None
  = Returned (1 / default 1 (MOCK_EXCHANGE_RATES !! "USD")).
Proof.
  apply (C7_unknown_currency_defaults_to_one seeded_env "XXX" "USD" None);
    [reflexivity | discriminate | reflexivity | reflexivity].
Defined.

(** C7 as stated fails: the code XXX is not in the table, and its rate to
    USD is returned as 1.0 / 1.08. *)
Lemma C7_counterexample :
  MOCK_EXCHANGE_RATES !! "XXX" = None
  /\ ~ raises (get_exchange_rate seeded_env "XXX" "USD" None)
  /\ exists q, get_exchange_rate seeded_env "XXX" "USD" None = Returned q
               /\ q == 100 # 108.
Proof.
  split; [reflexivity | split].
  - intros [e He]. vm_compute in He. discriminate He.
  - eexists. split; [vm_compute; reflexivity | reflexivity].
Qed.

End CurrencyFacts.

(** ** Treaty lookup *)

Section TreatyFacts.

Import Treaty Fixtures.

Lemma or_zero_null_or_zero (rate : option Q) : or_zero rate == 0 -> or_zero rate = 0.
Proof.
  destruct rate as [r |]; [| reflexivity]. simpl.
  destruct (truthy r) eqn:Ht; [| reflexivity].
  intros Hr. unfold truthy in Ht. apply negb_true_iff in Ht.
  apply Qeq_bool_iff in Hr. congruence.
Qed.

(** The row only carries three rate columns: any other field reads as None,
    and every field does when the three are NULL. *)
Lemma row_get_all_null treaty field :
  row_independent_services_rate treaty = None ->
  row_service_fee_rate treaty = None ->
  row_reduced_rate treaty = None ->
  row_get treaty field = None.
Proof.
  intros Hi Hf Hr. unfold row_get. rewrite Hi, Hf, Hr.
  match goal with |- mjoin (?m !! _) = _ => destruct (m !! field) as [v |] eqn:E end;
    [| reflexivity].
  apply elem_of_list_to_map_2 in E.
  repeat (apply elem_of_cons in E as [E | E]; [by injection E as -> -> |]).
  by apply elem_of_nil in E.
Qed.

Lemma first_rate_all_null treaty fields :
  row_independent_services_rate treaty = None ->
  row_service_fee_rate treaty = None ->
  row_reduced_rate treaty = None ->
  first_rate treaty fields = None.
Proof.
  intros Hi Hf Hr. induction fields as [| f fs IH]; [reflexivity |].
  simpl. by rewrite (row_get_all_null treaty f Hi Hf Hr).
Qed.

(** The fields tried for services, in the order of the loop. *)
Lemma first_rate_services treaty :
  first_rate treaty (default ["reduced_rate"] (rate_fields !! "services"))
  = match row_independent_services_rate treaty with
    | Some r => Some r
    | None =>
        match row_service_fee_rate treaty with
        | Some r => Some r
        | None => row_reduced_rate treaty
        end
    end.
Proof.
  change (default ["reduced_rate"] (rate_fields !! "services"))
    with ["independent_services_rate"; "service_fee_rate"; "reduced_rate"].
  unfold first_rate.
  change (row_get treaty "independent_services_rate")
    with (row_independent_services_rate treaty).
  change (row_get treaty "service_fee_rate") with (row_service_fee_rate treaty).
  change (row_get treaty "reduced_rate") with (row_reduced_rate treaty).
  destruct (row_independent_services_rate treaty); [reflexivity |].
  destruct (row_service_fee_rate treaty); [reflexivity |].
  by destruct (row_reduced_rate treaty).
Qed.

(** What the lookup returns once a treaty is found. *)
Lemma get_withholding_rate_treaty env fc cc income_type treaty :
  is_in fc get_eu_countries && is_in cc get_eu_countries = false ->
  get_applicable_treaty env fc cc = Some treaty ->
  get_withholding_rate env fc cc income_type
  = Returned {|
      ri_rate := or_zero (first_rate treaty
                            (default ["reduced_rate"] (rate_fields !! income_type)));
      ri_treaty_applied := true;
      ri_eu_member := None;
      ri_treaty_name := Some (row_treaty_name treaty);
      ri_treaty_code := Some (row_treaty_code treaty);
      ri_certificate_required := Some (row_certificate_required treaty);
      ri_form_required := Some (row_form_required treaty);
      ri_default_rate := None;
      ri_notes := "Rate under " ++ row_treaty_name treaty
    |}.
Proof.
  intros Heu Ht. unfold get_withholding_rate. by rewrite Heu, Ht.
Qed.

(** No branch of the lookup fails, and none sets the key ["default_rate"]. *)
Lemma get_withholding_rate_returns env fc cc income_type :
  exists ri, get_withholding_rate env fc cc income_type = Returned ri
             /\ ri_default_rate ri = None.
Proof.
  unfold get_withholding_rate.
  destruct (_ && _); [by eexists |].
  destruct (get_applicable_treaty env fc cc); by eexists.
Qed.

(** C4 (as amended): once a treaty is found, rate resolution never fails,
    whatever the income type.  For services it tries
    [independent_services_rate], then [service_fee_rate], then falls back to
    [reduced_rate]; [standard_rate] is not among the selected columns, and
    when the three rate columns are all absent the rate is 0, with
    [treaty_applied] set. *)
Theorem C4_rate_resolution env (fc cc : string) treaty :
  is_in fc get_eu_countries && is_in cc get_eu_countries = false ->
  get_applicable_treaty env fc cc = Some treaty ->
  (forall income_type,
      exists ri, get_withholding_rate env fc cc income_type = Returned ri
                 /\ ri_treaty_applied ri = true
                 /\ (row_independent_services_rate treaty = None ->
                     row_service_fee_rate treaty = None ->
                     row_reduced_rate treaty = None ->
                     ri_rate ri = 0))
  /\ (exists ri, get_withholding_rate env fc cc "services" = Returned ri
                 /\ ri_rate ri
                    = or_zero match row_independent_services_rate treaty with
                              | Some r => Some r
                              | None =>
                                  match row_service_fee_rate treaty with
                                  | Some r => Some r
                                  | None => row_reduced_rate treaty
                                  end
                              end).
Proof.
  intros Heu Ht. split.
  - intros income_type. eexists. split; [by apply get_withholding_rate_treaty |].
    split; [reflexivity |]. simpl. intros Hi Hf Hr.
    by rewrite (first_rate_all_null treaty _ Hi Hf Hr).
  - eexists. split; [by apply get_withholding_rate_treaty |].
    simpl. by rewrite first_rate_services.
Qed.

Lemma C4_rate_resolution_witness :
  exists ri, get_withholding_rate seeded_env "India" "Netherlands" "services" = Returned ri
             /\ ri_rate ri = or_zero (Some 10).
Proof.
  destruct (C4_rate_resolution seeded_env "India" "Netherlands"
              (select_columns (treaty "NL-IN"
                 "Netherlands-India Double Taxation Avoidance Agreement"
                 "Netherlands" "India"
                 (Some 40) (Some 10) (Some 10) (Some 10) (Some 10) (Some 10) None
                 None None)))
    as [_ H]; [reflexivity | reflexivity | exact H].
Defined.

(** C4 as stated fails.  A treaty with a standard rate of 20 and no other
    rate resolves to 20 by the stated rule and to 0 in the code; a treaty
    with no rate at all is an error by the stated rule and rate 0 in the
    code. *)
Lemma C4_counterexample :
  (get_applicable_treaty extended_env "Japan" "Netherlands"
     = Some (select_columns NL_JP_standard_only)
   /\ Spec.resolve_rate NL_JP_standard_only "services" = Returned 20
   /\ exists ri, get_withholding_rate extended_env "Japan" "Netherlands" "services"
                   = Returned ri
                 /\ ri_rate ri = 0)
  /\ (get_applicable_treaty extended_env "Brazil" "Netherlands"
        = Some (select_columns NL_BR_no_rate)
      /\ Spec.resolve_rate NL_BR_no_rate "services" = Raised Spec.NoRateDefined
      /\ ~ raises (get_withholding_rate extended_env "Brazil" "Netherlands" "services")).
Proof.
  split; (split; [reflexivity | split; [reflexivity |]]).
  - eexists. split; reflexivity.
  - intros [e He]. vm_compute in He. discriminate He.
Qed.

End TreatyFacts.

(** ** The tax calculator *)

Section CalculatorFacts.

Import Treaty Vat Calc Fixtures.

Lemma Qpos_bool_true x : Qpos_bool x = true <-> 0 < x.
Proof.
  unfold Qpos_bool. destruct (Qcompare_spec x 0) as [H | H | H];
    split; intros; try discriminate; try reflexivity; try assumption;
    exfalso; lra.
Qed.

Lemma Qgt_bool_true x y : Qgt_bool x y = true <-> y < x.
Proof.
  unfold Qgt_bool. destruct (Qcompare_spec x y) as [H | H | H];
    split; intros; try discriminate; try reflexivity; try assumption;
    exfalso; lra.
Qed.

(** The withholding step always returns, and its rate is the one the lookup
    reports: the key ["default_rate"] is never there to replace it. *)
Lemma _calculate_withholding_cross_border env self amount has_certificate :
  is_freelancer_eu self && is_company_eu self = false ->
  is_cross_border self = true ->
  exists ri,
    get_withholding_rate env (freelancer_country self) (company_country self) "services"
      = Returned ri
    /\ exists w, _calculate_withholding env self amount has_certificate = Returned w
         /\ wt_rate w = ri_rate ri
         /\ wt_amount w = py_round (amount * ri_rate ri / 100) 2
         /\ wt_treaty_applied w = ri_treaty_applied ri
         /\ wt_treaty_name w = Some (ri_treaty_name ri)
         /\ wt_notes w
            = if certificate_missing (ri_rate ri) has_certificate ri
              then ri_notes ri ++ " (Certificate required for reduced rate)"
              else ri_notes ri.
Proof.
  intros Heu Hcb.
  destruct (get_withholding_rate_returns env (freelancer_country self)
              (company_country self) "services") as [ri [Hri Hdef]].
  exists ri. split; [exact Hri |].
  unfold _calculate_withholding. rewrite Heu, Hcb, Hri. simpl.
  eexists. split; [reflexivity |]. rewrite Hdef. simpl.
  destruct (certificate_missing (ri_rate ri) has_certificate ri); repeat split.
Qed.

Lemma _calculate_withholding_returns env self amount has_certificate :
  exists w, _calculate_withholding env self amount has_certificate = Returned w.
Proof.
  destruct (is_freelancer_eu self && is_company_eu self) eqn:Heu;
    [unfold _calculate_withholding; rewrite Heu; by eexists |].
  destruct (is_cross_border self) eqn:Hcb;
    [| unfold _calculate_withholding; rewrite Heu, Hcb; by eexists].
  destruct (_calculate_withholding_cross_border env self amount has_certificate Heu Hcb)
    as [ri [_ [w [Hw _]]]].
  by exists w.
Qed.

(** The rate of the withholding step does not depend on the amount, and its
    amount is the rounded share of the gross amount (0 on the two early
    returns, where the rate is 0). *)
Lemma _calculate_withholding_amount env self a b has_certificate :
  exists wa wb,
    _calculate_withholding env self a has_certificate = Returned wa
    /\ _calculate_withholding env self b has_certificate = Returned wb
    /\ wt_rate wa = wt_rate wb
    /\ ((wt_amount wa = 0 /\ wt_amount wb = 0)
        \/ (wt_amount wa = py_round (a * wt_rate wa / 100) 2
            /\ wt_amount wb = py_round (b * wt_rate wa / 100) 2)).
Proof.
  destruct (is_freelancer_eu self && is_company_eu self) eqn:Heu.
  { unfold _calculate_withholding. rewrite Heu. do 2 eexists.
    repeat split; try reflexivity. left. split; reflexivity. }
  destruct (is_cross_border self) eqn:Hcb.
  2:{ unfold _calculate_withholding. rewrite Heu, Hcb. do 2 eexists.
      repeat split; try reflexivity. left. split; reflexivity. }
  destruct (_calculate_withholding_cross_border env self a has_certificate Heu Hcb)
    as [ri [Hri [wa [Hwa [Hra [Haa _]]]]]].
  destruct (_calculate_withholding_cross_border env self b has_certificate Heu Hcb)
    as [ri' [Hri' [wb [Hwb [Hrb [Hab _]]]]]].
  assert (ri' = ri) as -> by congruence.
  exists wa, wb. repeat split; try assumption; [congruence |].
  right. rewrite Hra. by split.
Qed.

(** The VAT step returns whenever the rate lookup yields a number. *)
Lemma _calculate_vat_returns env self amount service_type :
  is_Some (vi_rate (get_vat_rate env (freelancer_country self) service_type (is_b2b self))) ->
  exists v, _calculate_vat env self amount service_type = Returned v.
Proof.
  intros [rate Hrate]. unfold _calculate_vat. rewrite Hrate.
  repeat (destruct (_ && _); [by eexists |]). by eexists.
Qed.

(** The rate of the VAT step does not depend on the amount either. *)
Lemma _calculate_vat_amount env self a b service_type va :
  _calculate_vat env self a service_type = Returned va ->
  exists vb,
    _calculate_vat env self b service_type = Returned vb
    /\ vat_rate va = vat_rate vb
    /\ vat_reverse_charge va = vat_reverse_charge vb
    /\ ((vat_amount va = 0 /\ vat_amount vb = 0)
        \/ (vat_amount va = py_round (a * vat_rate va / 100) 2
            /\ vat_amount vb = py_round (b * vat_rate va / 100) 2)).
Proof.
  unfold _calculate_vat.
  repeat (destruct (_ && _);
          [intros [= <-]; eexists; repeat split; left; split; reflexivity |]).
  destruct (vi_rate _) as [rate |]; [| discriminate].
  intros [= <-]. eexists. repeat split. right. split; reflexivity.
Qed.

(** How the result is put together from the two steps. *)
Lemma calculate_all_taxes_assembles env self g service_type has_certificate w v :
  _calculate_withholding env self g has_certificate = Returned w ->
  _calculate_vat env self g service_type = Returned v ->
  exists r,
    calculate_all_taxes env self g service_type has_certificate = Returned r
    /\ gross_amount r = g
    /\ withholding_tax r = w
    /\ vat r = v
    /\ net_payable r
       = (if vat_reverse_charge v then g - wt_amount w
          else g + vat_amount v - wt_amount w)
    /\ compliance_notes r
       = (  (if vat_reverse_charge v then [REVERSE_CHARGE_NOTE] else [])
         ++ (if Qpos_bool (wt_rate w)
             then WITHHOLDING_NOTE env (wt_rate w)
                  :: (if wt_treaty_applied w then [TREATY_NOTE w] else [])
             else [])
         ++ (if is_freelancer_eu self && is_company_eu self && is_cross_border self
             then [INTRA_COMMUNITY_NOTE] else [])
         ++ (if Qgt_bool g 10000 then [LARGE_PAYMENT_NOTE] else []))%list.
Proof.
  intros Hw Hv. unfold calculate_all_taxes. rewrite Hw, Hv. simpl.
  eexists. split; [reflexivity |]. simpl. repeat split.
  unfold _get_compliance_notes. simpl.
  destruct (vat_reverse_charge v), (Qpos_bool (wt_rate w)), (wt_treaty_applied w),
    (is_freelancer_eu self && is_company_eu self && is_cross_border self),
    (Qgt_bool g 10000); reflexivity.
Qed.

Lemma calculate_all_taxes_returns env self g service_type has_certificate :
  is_Some (vi_rate (get_vat_rate env (freelancer_country self) service_type (is_b2b self))) ->
  returns (calculate_all_taxes env self g service_type has_certificate).
Proof.
  intros Hrate.
  destruct (_calculate_withholding_returns env self g has_certificate) as [w Hw].
  destruct (_calculate_vat_returns env self g service_type Hrate) as [v Hv].
  destruct (calculate_all_taxes_assembles env self g service_type has_certificate w v Hw Hv)
    as [r [Hr _]].
  by exists r.
Qed.

End CalculatorFacts.

(** ** The claims about the calculator *)

Section CalculatorClaims.

Import Treaty Vat Calc Fixtures.

Lemma calculate_all_taxes_inv env self g service_type has_certificate r :
  calculate_all_taxes env self g service_type has_certificate = Returned r ->
  exists w v,
    _calculate_withholding env self g has_certificate = Returned w
    /\ _calculate_vat env self g service_type = Returned v
    /\ withholding_tax r = w /\ vat r = v.
Proof.
  intros Hr.
  destruct (_calculate_withholding_returns env self g has_certificate) as [w Hw].
  destruct (_calculate_vat env self g service_type) as [v | e] eqn:Hv.
  - destruct (calculate_all_taxes_assembles env self g service_type has_certificate
                w v Hw Hv) as [r' [Hr' [_ [Hw' [Hv' _]]]]].
    assert (r' = r) as -> by congruence.
    by exists w, v.
  - unfold calculate_all_taxes in Hr. rewrite Hw, Hv in Hr. discriminate Hr.
Qed.

(** C1 (the code departs from the claim): Canada has a default rate of 25%;
    the Netherlands-Canada treaty grants 15% on a certificate.  With the
    treaty found, the certificate required and not on file, the calculator
    withholds at the treaty's 15%, and the compliance notes announce a
    reduced treaty rate; no note mentions the default rate. *)
Theorem C1_missing_certificate_keeps_treaty_rate :
  get_applicable_treaty extended_env "Canada" "Netherlands" = Some (select_columns NL_CA)
  /\ row_certificate_required (select_columns NL_CA) = true
  /\ Spec.withholding_rate (Some (select_columns NL_CA)) 15 "Canada" false = 25
  /\ exists r,
       calculate_all_taxes extended_env
         (TaxCalculator_init extended_env "Canada" "Netherlands" true None)
         1000 "professional" false = Returned r
       /\ wt_rate (withholding_tax r) = 15
       /\ wt_amount (withholding_tax r) == 150
       /\ wt_notes (withholding_tax r)
          = "Rate under Netherlands-Canada Tax Convention (Certificate required for reduced rate)"
       /\ compliance_notes r
          = [ REVERSE_CHARGE_NOTE;
              "WITHHOLDING TAX: 15.0% will be withheld. This should be reported to tax authorities and a certificate provided to the freelancer.";
              "TAX TREATY: Reduced rate applied under Netherlands-Canada Tax Convention. Ensure tax residency certificate is on file." ].
Proof.
  split; [reflexivity | split; [reflexivity | split; [reflexivity |]]].
  eexists. split; [vm_compute; reflexivity |].
  repeat split.
Qed.

(** C2 (as amended): a strictly negative gross amount is not rejected.  The
    calculator checks nothing about the amount: whenever the VAT rate lookup
    yields a number it returns a breakdown that carries the negative amount
    and the net payable computed from it. *)
Theorem C2_negative_amount_is_computed env (fc cc : string) (is_b2b : bool) d
    (g : Q) (s : string) (cert : bool) :
  g < 0 ->
  is_Some (vi_rate (get_vat_rate env fc s is_b2b)) ->
  exists r,
    calculate_all_taxes env (TaxCalculator_init env fc cc is_b2b d) g s cert = Returned r
    /\ gross_amount r = g
    /\ net_payable r
       = (if vat_reverse_charge (vat r)
          then g - wt_amount (withholding_tax r)
          else g + vat_amount (vat r) - wt_amount (withholding_tax r)).
Proof.
  intros _ Hrate. set (c := TaxCalculator_init env fc cc is_b2b d).
  destruct (_calculate_withholding_returns env c g cert) as [w Hw].
  destruct (_calculate_vat_returns env c g s Hrate) as [v Hv].
  destruct (calculate_all_taxes_assembles env c g s cert w v Hw Hv)
    as [r [Hr [Hg [Hw' [Hv' [Hnet _]]]]]].
  exists r. rewrite Hw', Hv'. by repeat split.
Qed.

Lemma C2_negative_amount_is_computed_witness :
  exists r,
    calculate_all_taxes seeded_env
      (TaxCalculator_init seeded_env "Germany" "Germany" false None)
      (-100) "standard" false = Returned r
    /\ gross_amount r = -100.
Proof.
  destruct (C2_negative_amount_is_computed seeded_env "Germany" "Germany" false None
              (-100) "standard" false) as [r [Hr [Hg _]]];
    [reflexivity | by eexists |].
  by exists r.
Defined.

(** C2 as stated fails: a domestic German B2C payment of -100 is not
    rejected; the breakdown has VAT -19 and net payable -119. *)
Lemma C2_counterexample :
  ~ raises (calculate_all_taxes seeded_env
              (TaxCalculator_init seeded_env "Germany" "Germany" false None)
              (-100) "standard" false)
  /\ exists r,
       calculate_all_taxes seeded_env
         (TaxCalculator_init seeded_env "Germany" "Germany" false None)
         (-100) "standard" false = Returned r
       /\ gross_amount r = -100
       /\ vat_amount (vat r) == -19
       /\ net_payable r == -119.
Proof.
  split.
  - intros [e He]. vm_compute in He. discriminate He.
  - eexists. split; [vm_compute; reflexivity |]. repeat split.
Qed.

(** The other notes are not the large-payment note. *)
Lemma large_payment_note_only_from_threshold env w g (self : TaxCalculator) (rc : bool) :
  In LARGE_PAYMENT_NOTE
     (  (if rc then [REVERSE_CHARGE_NOTE] else [])
     ++ (if Qpos_bool (wt_rate w)
         then WITHHOLDING_NOTE env (wt_rate w)
              :: (if wt_treaty_applied w then [TREATY_NOTE w] else [])
         else [])
     ++ (if is_freelancer_eu self && is_company_eu self && is_cross_border self
         then [INTRA_COMMUNITY_NOTE] else [])
     ++ (if Qgt_bool g 10000 then [LARGE_PAYMENT_NOTE] else []))%list
  <-> Qgt_bool g 10000 = true.
Proof.
  split.
  - intros Hin. destruct (Qgt_bool g 10000); [reflexivity | exfalso].
    rewrite app_nil_r in Hin.
    repeat (apply in_app_or in Hin as [Hin | Hin]);
      repeat match type of Hin with
             | In _ (if ?b then _ else _) => destruct b
             | In _ (_ :: _) => destruct Hin as [Hin | Hin]
             | In _ [] => destruct Hin
             | _ = _ => discriminate Hin
             end.
  - intros ->. rewrite !in_app_iff. do 3 right. by left.
Qed.

(** C3 (as amended): the large-payment (AML) note is appended exactly when
    the gross amount is strictly above 10000; at 10000 itself it is not. *)
Theorem C3_large_payment_note_above_threshold env (fc cc : string) (is_b2b : bool) d
    (g : Q) (s : string) (cert : bool) :
  is_Some (vi_rate (get_vat_rate env fc s is_b2b)) ->
  exists r,
    calculate_all_taxes env (TaxCalculator_init env fc cc is_b2b d) g s cert = Returned r
    /\ (In LARGE_PAYMENT_NOTE (compliance_notes r) <-> 10000 < g).
Proof.
  intros Hrate. set (c := TaxCalculator_init env fc cc is_b2b d).
  destruct (_calculate_withholding_returns env c g cert) as [w Hw].
  destruct (_calculate_vat_returns env c g s Hrate) as [v Hv].
  destruct (calculate_all_taxes_assembles env c g s cert w v Hw Hv)
    as [r [Hr [_ [_ [_ [_ Hnotes]]]]]].
  exists r. split; [exact Hr |].
  rewrite Hnotes, large_payment_note_only_from_threshold.
  apply Qgt_bool_true.
Qed.

Lemma C3_large_payment_note_above_threshold_witness :
  exists r,
    calculate_all_taxes seeded_env
      (TaxCalculator_init seeded_env "Germany" "United States" false None)
      (1000001 # 100) "standard" false = Returned r
    /\ (In LARGE_PAYMENT_NOTE (compliance_notes r) <-> 10000 < 1000001 # 100).
Proof.
  apply (C3_large_payment_note_above_threshold seeded_env "Germany" "United States"
           false None (1000001 # 100) "standard" false).
  by eexists.
Defined.

(** C3 as stated fails: at a gross amount of exactly 10000 the breakdown has
    no compliance note at all. *)
Lemma C3_counterexample :
  exists r,
    calculate_all_taxes seeded_env
      (TaxCalculator_init seeded_env "Germany" "United States" false None)
      10000 "standard" false = Returned r
    /\ compliance_notes r = []
    /\ ~ In LARGE_PAYMENT_NOTE (compliance_notes r).
Proof.
  eexists. split; [vm_compute; reflexivity |]. split; [reflexivity |].
  intros [].
Qed.

End CalculatorClaims.

(** ** VAT resolution, monotonicity and domestic payments *)

Section ResolutionClaims.

Import Treaty Vat Calc Fixtures.

(** C5 (as amended): for a B2C request the two reverse-charge rules never
    apply and [reverse_charge] is false, but the export rule does not look at
    the B2B flag: an EU payee with a non-EU payer gets rate 0.  Every other
    B2C request reaches the final rule and is charged the payee country's
    rate for the service type. *)
Theorem C5_b2c_vat_resolution env (fc cc : string) d (g : Q) (s : string) :
  _calculate_vat env (TaxCalculator_init env fc cc false d) g s
  = if is_in fc get_eu_countries && negb (is_in cc get_eu_countries)
    then Returned {| vat_rate := 0;
                     vat_amount := 0;
                     vat_reverse_charge := false;
                     vat_notes := "Export of services outside EU - 0% VAT" |}
    else match vi_rate (get_vat_rate env fc s false) with
         | Some rate =>
             Returned {| vat_rate := rate;
                         vat_amount := py_round (g * rate / 100) 2;
                         vat_reverse_charge := false;
                         vat_notes := "Standard VAT rate for " ++ fc |}
         | None => Raised TypeError
         end.
Proof.
  unfold _calculate_vat, TaxCalculator_init.
  cbn [is_freelancer_eu is_company_eu is_cross_border is_b2b freelancer_country].
  by rewrite !andb_false_r.
Qed.

(** C5 as stated fails: a German freelancer invoicing a consumer in the
    United States is charged 0% (export), not Germany's 19% that the final
    rule, and the stated decision order, would give. *)
Lemma C5_counterexample :
  Spec.resolve_vat seeded_env "United States" "Germany" false "standard"
    = (Some 19, false)
  /\ exists v,
       _calculate_vat seeded_env
         (TaxCalculator_init seeded_env "Germany" "United States" false None)
         1000 "standard" = Returned v
       /\ vat_rate v = 0
       /\ vat_amount v = 0
       /\ vat_notes v = "Export of services outside EU - 0% VAT".
Proof.
  split; [reflexivity |].
  eexists. split; [vm_compute; reflexivity |]. repeat split.
Qed.

Lemma share_mono (a b rate : Q) : a < b -> 0 < rate -> a * rate / 100 <= b * rate / 100.
Proof.
  intros Hab Hrate. unfold Qdiv.
  apply Qmult_le_compat_r; [| discriminate].
  apply Qmult_le_compat_r; apply Qlt_le_weak; assumption.
Qed.

(** C8 (as amended): for two requests that differ only in their gross
    amounts a < b, the rates are the same, and with a rate > 0 the VAT amount
    and the withholding amount for b are at least those for a.  They need not
    be strictly greater: both are rounded to two digits. *)
Theorem C8_amounts_are_monotone env (fc cc : string) (is_b2b : bool) d
    (a b : Q) (s : string) (cert : bool) :
  a < b ->
  is_Some (vi_rate (get_vat_rate env fc s is_b2b)) ->
  exists ra rb,
    calculate_all_taxes env (TaxCalculator_init env fc cc is_b2b d) a s cert = Returned ra
    /\ calculate_all_taxes env (TaxCalculator_init env fc cc is_b2b d) b s cert = Returned rb
    /\ vat_rate (vat ra) = vat_rate (vat rb)
    /\ wt_rate (withholding_tax ra) = wt_rate (withholding_tax rb)
    /\ (0 < vat_rate (vat ra) -> vat_amount (vat ra) <= vat_amount (vat rb))
    /\ (0 < wt_rate (withholding_tax ra) ->
        wt_amount (withholding_tax ra) <= wt_amount (withholding_tax rb)).
Proof.
  intros Hab Hrate. set (c := TaxCalculator_init env fc cc is_b2b d).
  destruct (_calculate_withholding_amount env c a b cert)
    as [wa [wb [Hwa [Hwb [Hwr Hwamt]]]]].
  destruct (_calculate_vat_returns env c a s Hrate) as [va Hva].
  destruct (_calculate_vat_amount env c a b s va Hva) as [vb [Hvb [Hvr [_ Hvamt]]]].
  destruct (calculate_all_taxes_assembles env c a s cert wa va Hwa Hva)
    as [ra [Hra [_ [Hwa' [Hva' _]]]]].
  destruct (calculate_all_taxes_assembles env c b s cert wb vb Hwb Hvb)
    as [rb [Hrb [_ [Hwb' [Hvb' _]]]]].
  exists ra, rb. rewrite Hwa', Hva', Hwb', Hvb'.
  repeat split; try assumption.
  - intros Hpos. destruct Hvamt as [[-> ->] | [-> ->]]; [apply Qle_refl |].
    apply py_round_mono, share_mono; assumption.
  - intros Hpos. destruct Hwamt as [[-> ->] | [-> ->]]; [apply Qle_refl |].
    apply py_round_mono, share_mono; assumption.
Qed.

Lemma C8_amounts_are_monotone_witness :
  exists ra rb,
    calculate_all_taxes seeded_env
      (TaxCalculator_init seeded_env "Germany" "Germany" false None)
      100 "standard" false = Returned ra
    /\ calculate_all_taxes seeded_env
         (TaxCalculator_init seeded_env "Germany" "Germany" false None)
         200 "standard" false = Returned rb
    /\ vat_amount (vat ra) <= vat_amount (vat rb).
Proof.
  destruct (C8_amounts_are_monotone seeded_env "Germany" "Germany" false None
              100 200 "standard" false)
    as [ra [rb [Hra [Hrb [_ [_ [Hvat _]]]]]]];
    [reflexivity | by eexists |].
  exists ra, rb. split; [exact Hra | split; [exact Hrb |]].
  apply Hvat.
  assert (Hsame : Returned ra
                  = calculate_all_taxes seeded_env
                      (TaxCalculator_init seeded_env "Germany" "Germany" false None)
                      100 "standard" false) by (symmetry; exact Hra).
  vm_compute in Hsame. injection Hsame as ->. reflexivity.
Defined.

(** C8 as stated fails: gross amounts 100 and 100.01 give the same VAT
    amount at Germany's 19% (19.00), and the same withholding amount at the
    Netherlands-Canada treaty's 15% (15.00). *)
Lemma C8_counterexample :
  100 < 10001 # 100
  /\ (exists ra rb,
        calculate_all_taxes seeded_env
          (TaxCalculator_init seeded_env "Germany" "Germany" false None)
          100 "standard" false = Returned ra
        /\ calculate_all_taxes seeded_env
             (TaxCalculator_init seeded_env "Germany" "Germany" false None)
             (10001 # 100) "standard" false = Returned rb
        /\ 0 < vat_rate (vat ra)
        /\ ~ vat_amount (vat ra) < vat_amount (vat rb))
  /\ (exists ra rb,
        calculate_all_taxes extended_env
          (TaxCalculator_init extended_env "Canada" "Netherlands" true None)
          100 "professional" true = Returned ra
        /\ calculate_all_taxes extended_env
             (TaxCalculator_init extended_env "Canada" "Netherlands" true None)
             (10001 # 100) "professional" true = Returned rb
        /\ 0 < wt_rate (withholding_tax ra)
        /\ ~ wt_amount (withholding_tax ra) < wt_amount (withholding_tax rb)).
Proof.
  split; [reflexivity |].
  split; do 2 eexists;
    (split; [vm_compute; reflexivity |]);
    (split; [vm_compute; reflexivity |]);
    (split; [reflexivity |]);
    intros H; vm_compute in H; discriminate H.
Qed.

(** C9: when the payer country is the payee country, the withholding step
    returns rate 0 and amount 0, every breakdown the calculator returns
    carries them, and it does return one whenever the VAT rate lookup yields
    a number. *)
Theorem C9_same_country_no_withholding env (country : string) (is_b2b : bool) d
    (g : Q) (s : string) (cert : bool) :
  (exists w,
     _calculate_withholding env (TaxCalculator_init env country country is_b2b d) g cert
       = Returned w
     /\ wt_rate w = 0 /\ wt_amount w = 0)
  /\ (forall r,
        calculate_all_taxes env (TaxCalculator_init env country country is_b2b d) g s cert
          = Returned r ->
        wt_rate (withholding_tax r) = 0 /\ wt_amount (withholding_tax r) = 0)
  /\ (is_Some (vi_rate (get_vat_rate env country s is_b2b)) ->
      returns (calculate_all_taxes env (TaxCalculator_init env country country is_b2b d)
                 g s cert)).
Proof.
  set (c := TaxCalculator_init env country country is_b2b d).
  assert (Hw : exists w, _calculate_withholding env c g cert = Returned w
                         /\ wt_rate w = 0 /\ wt_amount w = 0).
  { assert (Hcb : is_cross_border c = false).
    { unfold c, TaxCalculator_init.
      cbn [is_cross_border]. by rewrite String.eqb_refl. }
    unfold _calculate_withholding. rewrite Hcb.
    destruct (is_freelancer_eu c && is_company_eu c);
      eexists; (split; [reflexivity |]); split; reflexivity. }
  split; [exact Hw | split].
  - intros r Hr.
    destruct (calculate_all_taxes_inv env c g s cert r Hr) as [w [v [Hw' [_ [-> _]]]]].
    destruct Hw as [w0 [Hw0 Hz]]. congruence.
  - intros Hrate. by apply calculate_all_taxes_returns.
Qed.

Lemma C9_same_country_no_withholding_witness :
  returns (calculate_all_taxes seeded_env
             (TaxCalculator_init seeded_env "United States" "United States" true None)
             1000 "professional" false).
Proof.
  apply (C9_same_country_no_withholding seeded_env "United States" true None
           1000 "professional" false).
  by eexists.
Defined.

(** C10: when a treaty is found and its rate fields resolve to 0 or are all
    null, the lookup reports rate 0 with [treaty_applied] set; the calculator
    then skips the certificate adjustment (its test needs a rate > 0) and
    withholds 0, whether or not the treaty requires a certificate and
    whether or not one is on file. *)
Theorem C10_zero_treaty_rate_skips_certificate_check env (fc cc : string)
    (is_b2b : bool) d treaty :
  is_in fc get_eu_countries && is_in cc get_eu_countries = false ->
  fc <> cc ->
  get_applicable_treaty env fc cc = Some treaty ->
  or_zero (first_rate treaty (default ["reduced_rate"] (rate_fields !! "services"))) == 0 ->
  (forall income_type,
     or_zero (first_rate treaty (default ["reduced_rate"] (rate_fields !! income_type)))
       == 0 ->
     exists ri,
       get_withholding_rate env fc cc income_type = Returned ri
       /\ ri_rate ri = 0
       /\ ri_treaty_applied ri = true
       /\ forall has_certificate,
            certificate_missing (ri_rate ri) has_certificate ri = false)
  /\ (forall amount has_certificate,
        exists w,
          _calculate_withholding env (TaxCalculator_init env fc cc is_b2b d)
            amount has_certificate = Returned w
          /\ wt_rate w = 0
          /\ wt_amount w == 0
          /\ wt_treaty_applied w = true
          /\ wt_certificate_required w = Some (row_certificate_required treaty)
          /\ wt_notes w = "Rate under " ++ row_treaty_name treaty).
Proof.
  intros Heu Hne Ht Hzero.
  apply or_zero_null_or_zero in Hzero.
  pose proof (get_withholding_rate_treaty env fc cc "services" treaty Heu Ht) as Hri.
  rewrite Hzero in Hri.
  split.
  - intros income_type Hz. apply or_zero_null_or_zero in Hz.
    pose proof (get_withholding_rate_treaty env fc cc income_type treaty Heu Ht) as Hit.
    rewrite Hz in Hit.
    eexists. split; [exact Hit |]. repeat split.
  - intros amount has_certificate.
    unfold _calculate_withholding, TaxCalculator_init.
    cbn [is_freelancer_eu is_company_eu is_cross_border freelancer_country
         company_country].
    apply String.eqb_neq in Hne. rewrite Heu, Hne, Hri.
    cbn [negb bind ri_rate ri_default_rate ri_certificate_required ri_notes
         ri_treaty_applied ri_treaty_name certificate_missing Qpos_bool Qcompare
         andb default].
    eexists. split; [reflexivity |].
    cbn [wt_rate wt_amount wt_treaty_applied wt_certificate_required wt_notes].
    repeat split. apply py_round_zero_rate.
Qed.

Lemma C10_zero_treaty_rate_skips_certificate_check_witness :
  exists w,
    _calculate_withholding seeded_env
      (TaxCalculator_init seeded_env "United States" "Germany" true None)
      1000 false = Returned w
    /\ wt_rate w = 0
    /\ wt_treaty_applied w = true
    /\ wt_certificate_required w = Some true.
Proof.
  destruct (C10_zero_treaty_rate_skips_certificate_check seeded_env
              "United States" "Germany" true None
              (select_columns (treaty "DE-US" "Germany-United States Income Tax Treaty"
                 "Germany" "United States"
                 (Some 30) (Some 15) (Some 15) (Some 0) (Some 0) (Some 0) None
                 (Some "W-8BEN") None)))
    as [_ H]; [reflexivity | discriminate | reflexivity | reflexivity |].
  destruct (H 1000 false) as [w [Hw [Hr [_ [Ht [Hc _]]]]]].
  exists w. by repeat split.
Defined.

End ResolutionClaims.

(** * Further properties of the code *)

(** ** Rounding, continued *)

Section RoundingMore.

Local Open Scope Q_scope.

Lemma round_half_even_proper x y : x == y -> round_half_even x = round_half_even y.
Proof.
  intros H. unfold round_half_even.
  rewrite (Qfloor_comp x y H).
  assert (Hc : Qcompare (x - inject_Z (Qfloor y)) (1 # 2)
               = Qcompare (y - inject_Z (Qfloor y)) (1 # 2)) by (rewrite H; reflexivity).
  by rewrite Hc.
Qed.

Lemma py_round_proper x y p : x == y -> py_round x p = py_round y p.
Proof.
  intros H. unfold py_round.
  destruct (0 <=? p)%Z.
  - rewrite (round_half_even_proper (x * inject_Z (10 ^ p)) (y * inject_Z (10 ^ p)));
      [reflexivity | by rewrite H].
  - rewrite (round_half_even_proper (x / inject_Z (10 ^ (- p)))
               (y / inject_Z (10 ^ (- p)))); [reflexivity | by rewrite H].
Qed.

(** The nearest integer is at most one half away. *)
Lemma round_half_even_error x : Qabs (inject_Z (round_half_even x) - x) <= 1 # 2.
Proof.
  pose proof (Qfloor_le x) as Hlo. pose proof (Qlt_floor x) as Hhi.
  rewrite inject_Z_plus in Hhi. change (inject_Z 1) with 1 in Hhi.
  apply Qabs_Qle_condition. unfold round_half_even.
  destruct (Qcompare_spec (x - inject_Z (Qfloor x)) (1 # 2)) as [H | H | H];
    [destruct (Z.even (Qfloor x)) | | ];
    rewrite ?inject_Z_plus; change (inject_Z 1) with 1; split; lra.
Qed.

(** Rounding to [p] digits moves a number by at most half a unit of the
    last digit kept. *)
Lemma py_round_error x p :
  (0 <= p)%Z -> Qabs (py_round x p - x) <= (1 # 2) / inject_Z (10 ^ p).
Proof.
  intros Hp. pose proof (pow10_pos p Hp) as Hs.
  unfold py_round. apply Z.leb_le in Hp. rewrite Hp.
  set (s := inject_Z (10 ^ p)) in *.
  pose proof (round_half_even_error (x * s)) as He.
  set (n := inject_Z (round_half_even (x * s))) in *.
  apply Qabs_Qle_condition in He as [He1 He2].
  assert (Hs0 : ~ s == 0) by (intros H0; rewrite H0 in Hs; apply (Qlt_irrefl _ Hs)).
  assert (Hinv : 0 <= / s) by (apply Qinv_le_0_compat, Qlt_le_weak, Hs).
  apply Qabs_Qle_condition. split.
  - assert (E1 : - ((1 # 2) / s) == (- (1 # 2)) * / s) by (field; exact Hs0).
    assert (E2 : n / s - x == (n - x * s) * / s) by (field; exact Hs0).
    rewrite E1, E2. by apply Qmult_le_compat_r.
  - assert (E2 : n / s - x == (n - x * s) * / s) by (field; exact Hs0).
    rewrite E2. unfold Qdiv. by apply Qmult_le_compat_r.
Qed.

(** Rounding a rounded number changes nothing. *)
Lemma py_round_idempotent x p : py_round (py_round x p) p == py_round x p.
Proof.
  destruct (Z.le_gt_cases 0 p) as [Hp | Hp].
  - pose proof (pow10_pos p Hp) as Hs.
    apply (py_round_exact _ p (round_half_even (x * inject_Z (10 ^ p)))); [exact Hp |].
    unfold py_round. apply Z.leb_le in Hp. rewrite Hp.
    field. intros H0. rewrite H0 in Hs. apply (Qlt_irrefl _ Hs).
  - assert (Hs : 0 < inject_Z (10 ^ (- p))) by (apply pow10_pos; lia).
    unfold py_round. apply Z.leb_gt in Hp. rewrite Hp.
    rewrite (round_half_even_integer _ (round_half_even (x / inject_Z (10 ^ (- p)))));
      [reflexivity |].
    field. intros H0. rewrite H0 in Hs. apply (Qlt_irrefl _ Hs).
Qed.


End RoundingMore.

(** ** Exchange rates and conversion, continued *)

Section CurrencyMoreFacts.

Import Currency CurrencyApi Calc Fixtures.

Local Open Scope Q_scope.

Lemma mock_rate_pos (c : string) : 0 < default 1 (MOCK_EXCHANGE_RATES !! c).
Proof. apply Qpos_bool_true, mock_rate_positive. Qed.

Lemma mock_rate_nonzero (c : string) : ~ default 1 (MOCK_EXCHANGE_RATES !! c) == 0.
Proof.
  intros H. pose proof (mock_rate_pos c) as Hp. rewrite H in Hp.
  apply (Qlt_irrefl _ Hp).
Qed.

Lemma truthy_nonzero x : truthy x = true -> ~ x == 0.
Proof.
  unfold truthy. intros Ht Hx. apply negb_true_iff in Ht.
  apply Qeq_bool_iff in Hx. congruence.
Qed.

(** The row kept by the fold is one of the rows folded over. *)
Lemma fold_later_row_in rows init b :
  fold_left later_row rows init = Some b -> In b rows \/ init = Some b.
Proof.
  revert init. induction rows as [| r rows IH]; intros init H; [by right |].
  simpl in H. apply IH in H as [H | H]; [left; by right |].
  destruct init as [b0 |]; simpl in H.
  - destruct (ce_date b0 <? ce_date r)%Z; injection H as <-; [left; by left | by right].
  - injection H as <-. left. by left.
Qed.

(** A stored rate that is used comes from a row of the table for this pair
    of currencies, dated on or before the transaction date, and is not 0. *)
Lemma direct_rate_some env f t d r :
  direct_rate env f t d = Some r ->
  truthy r = true
  /\ exists rows row,
       currency_exchange env = Some rows /\ In row rows
       /\ ce_exchange_rate row = r
       /\ ce_from_currency row = f /\ ce_to_currency row = t
       /\ (ce_date row <= d)%Z.
Proof.
  unfold direct_rate, db_exchange_rate.
  destruct (currency_exchange env) as [rows |]; [| discriminate]. simpl.
  destruct (fold_left later_row _ None) as [b |] eqn:Hfold; [| discriminate]. simpl.
  destruct (truthy (ce_exchange_rate b)) eqn:Ht; [| discriminate].
  intros [= <-]. split; [exact Ht |].
  apply fold_later_row_in in Hfold as [Hin | Habs]; [| discriminate].
  apply filter_In in Hin as [Hin Hcond].
  apply andb_true_iff in Hcond as [Hcond Hd].
  apply andb_true_iff in Hcond as [Hf Ht'].
  exists rows, b. repeat split; try assumption.
  - by apply String.eqb_eq.
  - by apply String.eqb_eq.
  - by apply Z.leb_le.
Qed.

Lemma reverse_rate_some env f t d r :
  reverse_rate env f t d = Some r -> 0 < r.
Proof.
  unfold reverse_rate.
  destruct (try_pass _) as [[rr |] |]; try discriminate.
  destruct (truthy rr && Qpos_bool rr) eqn:Hc; [| discriminate].
  intros [= <-]. apply andb_true_iff in Hc as [_ Hpos].
  apply Qpos_bool_true in Hpos.
  unfold Qdiv. rewrite Qmult_1_l. by apply Qinv_lt_0_compat.
Qed.

(** X1: the exchange rate is never 0 (a stored rate of 0 is skipped, a
    reverse rate is used only when positive, the mock rates are positive),
    and it is positive when no stored rate is negative. *)
Theorem X1_exchange_rate_never_zero env (f t : string) d :
  exists r,
    get_exchange_rate env f t d = Returned r
    /\ ~ r == 0
    /\ ((forall rows, currency_exchange env = Some rows ->
           Forall (fun row => 0 <= ce_exchange_rate row) rows) ->
        0 < r).
Proof.
  unfold get_exchange_rate.
  destruct (String.eqb f t).
  { exists 1. split; [reflexivity |]. split; [intros H; discriminate H |].
    intros _. reflexivity. }
  destruct (direct_rate env f t _) as [r |] eqn:Hd.
  { exists r. apply direct_rate_some in Hd
      as [Ht [rows [row [Hrows [Hin [Hr _]]]]]].
    split; [reflexivity |]. split; [by apply truthy_nonzero |].
    intros Hall. specialize (Hall rows Hrows).
    rewrite Forall_forall in Hall. apply list_elem_of_In in Hin.
    specialize (Hall row Hin). rewrite Hr in Hall.
    apply truthy_nonzero in Ht.
    destruct (Qlt_le_dec 0 r) as [Hlt | Hle]; [exact Hlt |].
    exfalso. apply Ht. by apply Qle_antisym. }
  destruct (reverse_rate env f t _) as [r |] eqn:Hr.
  { exists r. apply reverse_rate_some in Hr.
    split; [reflexivity |]. split; [| by intros _].
    intros H0. rewrite H0 in Hr. apply (Qlt_irrefl _ Hr). }
  rewrite mock_rate_positive.
  eexists. split; [reflexivity |].
  assert (Hpos : 0 < default 1 (MOCK_EXCHANGE_RATES !! f)
                     / default 1 (MOCK_EXCHANGE_RATES !! t)).
  { unfold Qdiv. apply Qmult_lt_0_compat; [apply mock_rate_pos |].
    apply Qinv_lt_0_compat, mock_rate_pos. }
  split; [| by intros _].
  intros H0. rewrite H0 in Hpos. apply (Qlt_irrefl _ Hpos).
Qed.

Lemma X1_exchange_rate_never_zero_witness :
  exists r, get_exchange_rate seeded_env "USD" "GBP" None = Returned r /\ 0 < r.
Proof.
  destruct (X1_exchange_rate_never_zero seeded_env "USD" "GBP" None)
    as [r [Hr [_ Hpos]]].
  exists r. split; [exact Hr |]. apply Hpos. intros rows Hrows. discriminate Hrows.
Defined.

(** With the Currency Exchange table out of reach, the rate is the quotient
    of the two mock rates, 1.0 standing in for a code the table lacks. *)
Lemma offline_rate env (a b : string) d :
  currency_exchange env = None ->
  exists r,
    get_exchange_rate env a b d = Returned r
    /\ r == default 1 (MOCK_EXCHANGE_RATES !! a) / default 1 (MOCK_EXCHANGE_RATES !! b).
Proof.
  intros Hoff. unfold get_exchange_rate, direct_rate, reverse_rate, db_exchange_rate.
  rewrite Hoff. cbn [try_pass].
  destruct (String.eqb a b) eqn:Hab.
  - apply String.eqb_eq in Hab as ->. exists 1. split; [reflexivity |].
    field. apply mock_rate_nonzero.
  - rewrite mock_rate_positive. eexists. split; reflexivity.
Qed.



(** X3: [get_all_exchange_rates] lists exactly the codes of the mock table;
    a base that is in the table maps to 1; and, offline, each listed rate is
    the rate [get_exchange_rate] gives from that code to the base. *)
Theorem X3_all_rates_agree_with_lookup (base : string) :
  (forall c, get_all_exchange_rates base !! c = None <-> MOCK_EXCHANGE_RATES !! c = None)
  /\ (forall m, MOCK_EXCHANGE_RATES !! base = Some m ->
        exists r, get_all_exchange_rates base !! base = Some r /\ r == 1)
  /\ (forall env c d r,
        currency_exchange env = None ->
        get_all_exchange_rates base !! c = Some r ->
        exists q, get_exchange_rate env c base d = Returned q /\ q == r).
Proof.
  unfold get_all_exchange_rates.
  destruct (String.eqb base "EUR") eqn:Hb.
  - apply String.eqb_eq in Hb as ->. split; [done | split].
    + intros m Hm. exists m. split; [exact Hm |].
      vm_compute in Hm. by injection Hm as <-.
    + intros env c d r Hoff Hr.
      destruct (offline_rate env c "EUR" d Hoff) as [q [Hq Eq]].
      exists q. split; [exact Hq |]. rewrite Eq, Hr.
      change (default 1 (MOCK_EXCHANGE_RATES !! "EUR")) with 1.
      change (default 1 (Some r)) with r. field.
  - split; [| split].
    + intros c. rewrite lookup_fmap. by destruct (MOCK_EXCHANGE_RATES !! c).
    + intros m Hm.
      pose proof (mock_rate_nonzero base) as Hnz.
      rewrite lookup_fmap, Hm. rewrite Hm in Hnz.
      change (default 1 (Some m)) with m in *.
      exists (m / m). split; [reflexivity |]. by field.
    + intros env c d r Hoff Hr. rewrite lookup_fmap in Hr.
      destruct (offline_rate env c base d Hoff) as [q [Hq Eq]].
      exists q. split; [exact Hq |]. rewrite Eq.
      set (base_rate := default 1 (MOCK_EXCHANGE_RATES !! base)) in *.
      destruct (MOCK_EXCHANGE_RATES !! c) as [m |]; [| discriminate].
      cbn in Hr. injection Hr as <-. reflexivity.
Qed.

Lemma X3_all_rates_agree_with_lookup_witness :
  (exists r, get_all_exchange_rates "USD" !! "USD" = Some r /\ r == 1)
  /\ exists q, get_exchange_rate seeded_env "EUR" "USD" None = Returned q
               /\ q == 100 # 108.
Proof.
  destruct (X3_all_rates_agree_with_lookup "USD") as [_ [Hbase Hagree]].
  split.
  - apply (Hbase (108 # 100)). reflexivity.
  - apply (Hagree seeded_env "EUR" None (1 / (108 # 100))); reflexivity.
Defined.

(** Conversion as one formula, with its rounding error. *)
Lemma convert_currency_rounded_product env (amount : Q) (f t : string) d (p : Z) :
  exists r y,
    get_exchange_rate env f t d = Returned r
    /\ convert_currency env amount f t d p = Returned y
    /\ y = py_round (amount * r) p
    /\ ((0 <= p)%Z -> Qabs (y - amount * r) <= (1 # 2) / inject_Z (10 ^ p)).
Proof.
  destruct (get_exchange_rate_returns env f t d) as [r Hr].
  exists r. unfold convert_currency.
  destruct (String.eqb f t) eqn:Hft.
  - unfold get_exchange_rate in Hr. rewrite Hft in Hr. injection Hr as <-.
    exists (py_round amount p). split; [| split; [reflexivity | split]].
    + unfold get_exchange_rate. by rewrite Hft.
    + apply py_round_proper. ring.
    + intros Hp. rewrite (py_round_proper amount (amount * 1) p) by ring.
      by apply py_round_error.
  - rewrite Hr. cbn [bind].
    eexists. split; [reflexivity | split; [reflexivity | split; [reflexivity |]]].
    intros Hp. by apply py_round_error.
Qed.



(** X5: the result of a conversion is already rounded: rounding it again to
    the same precision gives the same number. *)
Theorem X5_conversion_result_is_rounded env (amount : Q) (f t : string) d (p : Z) :
  exists y,
    convert_currency env amount f t d p = Returned y
    /\ py_round y p == y.
Proof.
  destruct (convert_currency_rounded_product env amount f t d p)
    as [r [y [_ [Hy [-> _]]]]].
  eexists. split; [exact Hy |]. apply py_round_idempotent.
Qed.

(** X6: [convert_amount_api] never fails, and the converted amount it
    reports is the original amount times the exchange rate it reports,
    rounded to 2 digits. *)
Theorem X6_conversion_reply_is_consistent env (amount : Q) (f t : string) d :
  exists reply,
    convert_amount_api env amount f t d = Returned reply
    /\ original_amount reply = amount
    /\ converted_amount reply = py_round (original_amount reply * exchange_rate reply) 2
    /\ cr_date reply = default (today env) d.
Proof.
  destruct (convert_currency_rounded_product env amount f t d 2)
    as [r [y [Hr [Hy [-> _]]]]].
  unfold convert_amount_api. rewrite Hr, Hy. cbn [bind].
  eexists. split; [reflexivity |]. repeat split.
Qed.

End CurrencyMoreFacts.

(** ** Treaty selection and treaty validation *)

Section TreatyMoreFacts.

Import Treaty TaxTreatyDoc Calc Fixtures.

Local Open Scope Q_scope.

Lemma where_clause_sym a b now t : where_clause a b now t = where_clause b a now t.
Proof. unfold where_clause. by rewrite orb_comm. Qed.

Lemma date_before_trans a b c :
  date_before a b = true -> date_before b c = true -> date_before a c = true.
Proof.
  destruct a as [x |], b as [y |], c as [z |]; simpl; try discriminate; try reflexivity.
  rewrite !Z.ltb_lt. lia.
Qed.

(** The fold keeps a row with the latest effective date among those seen. *)
Lemma fold_later_treaty_max rows :
  forall seen best,
    match best with
    | None => seen = []
    | Some t =>
        In t seen
        /\ forall u, In u seen ->
             date_before (effective_date t) (effective_date u) = false
    end ->
    match fold_left later_treaty rows best with
    | None => (seen ++ rows)%list = []
    | Some t =>
        In t (seen ++ rows)%list
        /\ forall u, In u (seen ++ rows)%list ->
             date_before (effective_date t) (effective_date u) = false
    end.
Proof.
  induction rows as [| r rows IH]; intros seen best Hbest.
  - simpl. rewrite app_nil_r. exact Hbest.
  - simpl. replace (seen ++ r :: rows)%list with ((seen ++ [r]) ++ rows)%list
      by (rewrite <- app_assoc; reflexivity).
    apply IH. destruct best as [b |]; simpl.
    + destruct Hbest as [Hin Hmax].
      destruct (date_before (effective_date b) (effective_date r)) eqn:Hbr.
      * split; [apply in_or_app; right; by left |].
        intros u Hu. apply in_app_or in Hu as [Hu | [<- | []]].
        -- destruct (date_before (effective_date r) (effective_date u)) eqn:Hru;
             [| reflexivity].
           rewrite <- (Hmax u Hu). symmetry. by apply (date_before_trans _ _ _ Hbr).
        -- destruct (effective_date r) as [x |]; simpl; [apply Z.ltb_irrefl | reflexivity].
      * split; [apply in_or_app; by left |].
        intros u Hu. apply in_app_or in Hu as [Hu | [<- | []]]; [by apply Hmax | exact Hbr].
    + subst seen. split; [by left |].
      intros u [<- | []].
      destruct (effective_date r) as [x |]; simpl; [apply Z.ltb_irrefl | reflexivity].
Qed.

(** What is known of a row that the lookup returns. *)
Lemma get_applicable_treaty_sound env (a b : string) row :
  get_applicable_treaty env a b = Some row ->
  exists t,
    In t (tax_treaties env)
    /\ row = select_columns t
    /\ status t = Active
    /\ ((country_1 t = a /\ country_2 t = b) \/ (country_1 t = b /\ country_2 t = a))
    /\ (forall e, expiry_date t = Some e -> (today env <= e)%Z)
    /\ forall u, In u (tax_treaties env) ->
         where_clause a b (today env) u = true ->
         date_before (effective_date t) (effective_date u) = false.
Proof.
  unfold get_applicable_treaty. intros H.
  pose proof (fold_later_treaty_max
                (List.filter (where_clause a b (today env)) (tax_treaties env))
                [] None eq_refl) as Hmax.
  destruct (fold_left later_treaty _ None) as [t |]; [| discriminate].
  injection H as <-. simpl in Hmax. destruct Hmax as [Hin Hmax].
  apply filter_In in Hin as [Hin Hw].
  exists t. split; [exact Hin | split; [reflexivity |]].
  unfold where_clause in Hw.
  apply andb_true_iff in Hw as [Hw Hexp]. apply andb_true_iff in Hw as [Hact Hpair].
  split; [by destruct (status t) | split; [| split]].
  - apply orb_true_iff in Hpair as [Hp | Hp]; apply andb_true_iff in Hp as [H1 H2];
      apply String.eqb_eq in H1, H2; [by left | by right].
  - intros e He. rewrite He in Hexp. by apply Z.leb_le.
  - intros u Hu Hwu. apply Hmax. by apply filter_In.
Qed.

(** X7: a treaty that is found is a row of the table that is Active, is
    between the two countries in either order, has not expired today, and
    has the latest effective date of all such rows. *)
Theorem X7_found_treaty_is_the_latest_match env (a b : string) row :
  get_applicable_treaty env a b = Some row ->
  exists t,
    In t (tax_treaties env)
    /\ row = select_columns t
    /\ status t = Active
    /\ ((country_1 t = a /\ country_2 t = b) \/ (country_1 t = b /\ country_2 t = a))
    /\ (forall e, expiry_date t = Some e -> (today env <= e)%Z)
    /\ forall u, In u (tax_treaties env) ->
         where_clause a b (today env) u = true ->
         date_before (effective_date t) (effective_date u) = false.
Proof. apply get_applicable_treaty_sound. Qed.

Lemma X7_found_treaty_is_the_latest_match_witness :
  exists t,
    In t (tax_treaties seeded_env)
    /\ status t = Active
    /\ ((country_1 t = "India" /\ country_2 t = "Netherlands")
        \/ (country_1 t = "Netherlands" /\ country_2 t = "India")).
Proof.
  destruct (X7_found_treaty_is_the_latest_match seeded_env "India" "Netherlands"
              (select_columns (treaty "NL-IN"
                 "Netherlands-India Double Taxation Avoidance Agreement"
                 "Netherlands" "India"
                 (Some 40) (Some 10) (Some 10) (Some 10) (Some 10) (Some 10) None
                 None None)))
    as [t [Hin [_ [Hact [Hpair _]]]]]; [reflexivity |].
  by exists t.
Defined.

(** When the lookup finds nothing. *)
Lemma get_applicable_treaty_none_iff env (a b : string) :
  get_applicable_treaty env a b = None
  <-> forall t, In t (tax_treaties env) -> where_clause a b (today env) t = false.
Proof.
  unfold get_applicable_treaty.
  pose proof (fold_later_treaty_max
                (List.filter (where_clause a b (today env)) (tax_treaties env))
                [] None eq_refl) as Hmax.
  destruct (fold_left later_treaty _ None) as [t |]; simpl in Hmax.
  - destruct Hmax as [Hin _]. apply filter_In in Hin as [Hin Hw].
    split; [discriminate |]. intros Hnone. rewrite (Hnone t Hin) in Hw. discriminate Hw.
  - split; [| reflexivity]. intros _ t Hin.
    destruct (where_clause a b (today env) t) eqn:Hw; [| reflexivity].
    assert (Hf : In t (List.filter (where_clause a b (today env)) (tax_treaties env)))
      by (by apply filter_In).
    rewrite Hmax in Hf. destruct Hf.
Qed.

(** X8: no treaty is found exactly when no row of the table passes the
    selection (Active, this pair of countries, not expired). *)
Theorem X8_no_treaty_iff_no_match env (a b : string) :
  get_applicable_treaty env a b = None
  <-> forall t, In t (tax_treaties env) -> where_clause a b (today env) t = false.
Proof. apply get_applicable_treaty_none_iff. Qed.

(** X9: the lookup does not depend on the order of the two countries. *)
Theorem X9_treaty_lookup_is_symmetric env (a b : string) :
  get_applicable_treaty env a b = get_applicable_treaty env b a.
Proof.
  unfold get_applicable_treaty. do 2 f_equal.
  apply filter_ext. intros t. apply where_clause_sym.
Qed.

Lemma Qgt_bool_false x y : Qgt_bool x y = false <-> x <= y.
Proof.
  unfold Qgt_bool. destruct (Qcompare_spec x y) as [H | H | H];
    split; intros; try discriminate; try reflexivity; try lra.
Qed.

Lemma check_rates_returns rates :
  returns (check_rates rates)
  <-> Forall (fun r => match r with
                       | Some q => 0 <= q /\ q <= 100
                       | None => True
                       end) rates.
Proof.
  induction rates as [| [q |] rates IH]; simpl.
  - split; [constructor | by exists tt].
  - destruct (Qgt_bool 0 q || Qgt_bool q 100) eqn:Hc.
    + split; [intros [u Hu]; discriminate Hu |].
      intros HF. apply Forall_cons in HF as [[H0 H100] _].
      apply orb_true_iff in Hc as [Hc | Hc]; apply Qgt_bool_true in Hc; lra.
    + apply orb_false_iff in Hc as [H0 H100]. apply Qgt_bool_false in H0, H100.
      rewrite IH. split; [by constructor |]. intros HF. by apply Forall_cons in HF as [_ HF].
  - rewrite IH. split; [by constructor |]. intros HF. by apply Forall_cons in HF as [_ HF].
Qed.

(** When the rate validation passes. *)
Lemma validate_rates_returns_iff env (t : TaxTreaty) :
  returns (validate_rates env t)
  <-> Forall (fun r => match r with
                       | Some q => 0 <= q /\ q <= 100
                       | None => True
                       end) (rate_field_values t).
Proof.
  rewrite <- check_rates_returns. unfold validate_rates.
  destruct (check_rates (rate_field_values t)) as [[] | e]; simpl.
  - split; [intros _; by exists tt |]. intros _.
    destruct (reduced_rate t) as [r |], (standard_rate t) as [s |]; try by eexists.
    destruct (truthy r && truthy s && Qgt_bool r s); by eexists.
  - split; intros [u Hu]; discriminate Hu.
Qed.

(** X10: [validate_rates] throws exactly when one of the seven rate fields
    is set to a value below 0 or above 100; a reduced rate above the
    standard rate only produces a message. *)
Theorem X10_validate_rates_accepts_percentages env (t : TaxTreaty) :
  returns (validate_rates env t)
  <-> Forall (fun r => match r with
                       | Some q => 0 <= q /\ q <= 100
                       | None => True
                       end) (rate_field_values t).
Proof. apply validate_rates_returns_iff. Qed.

(** A selected rate column of a found row is one of the fields that
    [validate_rates] checks. *)
Lemma row_get_checked t field r :
  row_get (select_columns t) field = Some r -> In (Some r) (rate_field_values t).
Proof.
  unfold row_get.
  match goal with |- mjoin (?m !! _) = _ -> _ => destruct (m !! field) as [v |] eqn:E end;
    [| discriminate].
  apply elem_of_list_to_map_2 in E. simpl. intros ->.
  repeat (apply elem_of_cons in E as [E | E];
          [injection E as _ E; unfold rate_field_values; rewrite <- E; simpl; tauto |]).
  by apply elem_of_nil in E.
Qed.

Lemma first_rate_checked t fields r :
  first_rate (select_columns t) fields = Some r -> In (Some r) (rate_field_values t).
Proof.
  induction fields as [| f fs IH]; simpl; [discriminate |].
  destruct (row_get (select_columns t) f) as [q |] eqn:Hq; [| exact IH].
  intros [= <-]. by apply (row_get_checked t f).
Qed.

Lemma default_rate_is_percentage (c : string) :
  0 <= default 30 (default_rates !! c) /\ default 30 (default_rates !! c) <= 100.
Proof.
  destruct (default_rates !! c) as [q |] eqn:E; [| split; discriminate].
  unfold default_rates in E. apply elem_of_list_to_map_2 in E.
  repeat (apply elem_of_cons in E as [E | E]; [injection E as -> ->; split; discriminate |]).
  by apply elem_of_nil in E.
Qed.

(** The reported rate under validated treaties. *)
Lemma withholding_rate_is_percentage env :
  (forall t, In t (tax_treaties env) -> returns (validate_rates env t)) ->
  forall fc cc income_type,
  exists ri,
    get_withholding_rate env fc cc income_type = Returned ri
    /\ 0 <= ri_rate ri /\ ri_rate ri <= 100.
Proof.
  intros Hvalid fc cc income_type. unfold get_withholding_rate.
  destruct (_ && _); [eexists; split; [reflexivity |]; split; discriminate |].
  destruct (get_applicable_treaty env fc cc) as [row |] eqn:Hrow.
  - eexists. split; [reflexivity |]. cbn [ri_rate].
    apply get_applicable_treaty_sound in Hrow as [t [Hin [-> _]]].
    destruct (first_rate (select_columns t) _) as [r |] eqn:Hr;
      [| split; discriminate].
    simpl. destruct (truthy r); [| split; discriminate].
    apply first_rate_checked in Hr.
    apply Hvalid, validate_rates_returns_iff in Hin.
    rewrite Forall_forall in Hin. apply list_elem_of_In in Hr. exact (Hin _ Hr).
  - eexists. split; [reflexivity |]. apply default_rate_is_percentage.
Qed.

(** X11: when every treaty of the table passes [validate_rates], the rate
    the withholding lookup reports is a percentage, between 0 and 100, for
    any countries and income type. *)
Theorem X11_validated_treaties_give_percentages env :
  (forall t, In t (tax_treaties env) -> returns (validate_rates env t)) ->
  forall fc cc income_type,
  exists ri,
    get_withholding_rate env fc cc income_type = Returned ri
    /\ 0 <= ri_rate ri /\ ri_rate ri <= 100.
Proof. apply withholding_rate_is_percentage. Qed.

End TreatyMoreFacts.

(** ** Validated treaties and the calculator *)

Section ValidatedTreaties.

Import Treaty TaxTreatyDoc Calc Fixtures.

Local Open Scope Q_scope.

Lemma seeded_treaties_pass_validate_rates t :
  In t (tax_treaties seeded_env) -> returns (validate_rates seeded_env t).
Proof.
  simpl. intros Hin.
  repeat (destruct Hin as [<- | Hin]; [eexists; vm_compute; reflexivity |]).
  destruct Hin.
Qed.

Lemma X11_validated_treaties_give_percentages_witness :
  exists ri,
    get_withholding_rate seeded_env "India" "Netherlands" "services" = Returned ri
    /\ 0 <= ri_rate ri /\ ri_rate ri <= 100.
Proof.
  apply (X11_validated_treaties_give_percentages seeded_env
           seeded_treaties_pass_validate_rates "India" "Netherlands" "services").
Defined.

(** X12: when every treaty of the table passes [validate_countries], no
    treaty is ever found between a country and itself. *)
Theorem X12_no_treaty_with_itself env (c : string) :
  (forall t, In t (tax_treaties env) -> returns (validate_countries t)) ->
  get_applicable_treaty env c c = None.
Proof.
  intros Hvalid. apply get_applicable_treaty_none_iff. intros t Hin.
  specialize (Hvalid t Hin). unfold validate_countries in Hvalid.
  unfold where_clause.
  destruct (String.eqb (country_1 t) (country_2 t)) eqn:H12;
    [destruct Hvalid as [u Hu]; discriminate Hu |].
  destruct (String.eqb (country_1 t) c) eqn:H1, (String.eqb (country_2 t) c) eqn:H2;
    rewrite ?andb_false_r, ?andb_false_l; try reflexivity.
  apply String.eqb_eq in H1, H2. apply String.eqb_neq in H12. congruence.
Qed.

Lemma X12_no_treaty_with_itself_witness :
  get_applicable_treaty seeded_env "Netherlands" "Netherlands" = None.
Proof.
  apply (X12_no_treaty_with_itself seeded_env "Netherlands").
  simpl. intros t Hin.
  repeat (destruct Hin as [<- | Hin]; [eexists; vm_compute; reflexivity |]).
  destruct Hin.
Defined.



End ValidatedTreaties.

(** ** VAT rates and when the calculator fails *)

Section VatMoreFacts.

Import Treaty Vat VatMore Calc Fixtures.

Local Open Scope Q_scope.

Lemma py_or_some a s : is_Some (py_or a (Some s)).
Proof.
  unfold py_or. destruct a as [q |]; simpl; [| by eexists].
  destruct (truthy q); by eexists.
Qed.

(** With the standard rate and the first reduced rate set on every
    configuration, the rate lookup always yields a number. *)
Lemma get_vat_rate_some env :
  (forall cfg, In cfg (vat_configurations env) ->
     is_Some (vat_standard_rate cfg) /\ is_Some (reduced_rate_1 cfg)) ->
  forall c service_type is_b2b,
    is_Some (vi_rate (get_vat_rate env c service_type is_b2b)).
Proof.
  intros Hset c service_type is_b2b. unfold get_vat_rate, get_config.
  destruct (find _ _) as [config |] eqn:Hfind; [| by eexists].
  apply find_some in Hfind as [Hin _].
  destruct (Hset config Hin) as [[std Hstd] [red Hred]].
  destruct (is_b2b && reverse_charge_b2b config); [by eexists |].
  cbn [vi_rate]. rewrite Hstd, Hred.
  match goal with |- is_Some (default _ (?m !! _)) =>
    destruct (m !! service_type) as [v |] eqn:E end; [| by eexists].
  apply elem_of_list_to_map_2 in E. cbn [default].
  repeat (apply elem_of_cons in E as [E | E];
          [injection E as _ ->; first [by eexists | apply py_or_some] |]).
  by apply elem_of_nil in E.
Qed.

(** X14: when every VAT configuration has its standard rate and its first
    reduced rate set, the calculator returns a breakdown for every request. *)
Theorem X14_calculator_returns_when_rates_are_set env :
  (forall cfg, In cfg (vat_configurations env) ->
     is_Some (vat_standard_rate cfg) /\ is_Some (reduced_rate_1 cfg)) ->
  forall (fc cc : string) (is_b2b : bool) d (g : Q) (s : string) (cert : bool),
    returns (calculate_all_taxes env (TaxCalculator_init env fc cc is_b2b d) g s cert).
Proof.
  intros Hset fc cc is_b2b d g s cert.
  apply calculate_all_taxes_returns.
  apply (get_vat_rate_some env Hset).
Qed.

Lemma X14_calculator_returns_when_rates_are_set_witness :
  returns (calculate_all_taxes
             {| currency_exchange := None;
                tax_treaties := [];
                vat_configurations := [vat_config "Germany" true (Some 19) (Some 7) true];
                today := 20396%Z;
                str_number := str_float |}
             (TaxCalculator_init
                {| currency_exchange := None;
                   tax_treaties := [];
                   vat_configurations := [vat_config "Germany" true (Some 19) (Some 7) true];
                   today := 20396%Z;
                   str_number := str_float |}
                "Germany" "Germany" false None)
             1000 "reduced" false).
Proof.
  apply X14_calculator_returns_when_rates_are_set.
  intros cfg [<- | []]. split; by eexists.
Defined.

(** X15: the only failure of the calculator is the TypeError of the final
    VAT rule: it fails only when a configuration of the payee country exists
    and the rate it gives for the service type is null. *)
Theorem X15_calculator_fails_only_on_null_vat_rate env (fc cc : string)
    (is_b2b : bool) d (g : Q) (s : string) (cert : bool) e :
  calculate_all_taxes env (TaxCalculator_init env fc cc is_b2b d) g s cert = Raised e ->
  e = TypeError
  /\ vi_rate (get_vat_rate env fc s is_b2b) = None
  /\ exists config, get_config env fc = Some config.
Proof.
  intros Hraise. set (c := TaxCalculator_init env fc cc is_b2b d) in *.
  destruct (_calculate_withholding_returns env c g cert) as [w Hw].
  unfold calculate_all_taxes in Hraise. rewrite Hw in Hraise. cbn [bind] in Hraise.
  destruct (_calculate_vat env c g s) as [v | e'] eqn:Hv; [discriminate Hraise |].
  cbn [bind] in Hraise. injection Hraise as ->.
  unfold _calculate_vat in Hv.
  repeat (destruct (_ && _) in Hv; [discriminate Hv |]).
  change (freelancer_country c) with fc in Hv.
  change (Calc.is_b2b c) with is_b2b in Hv.
  destruct (vi_rate (get_vat_rate env fc s is_b2b)) as [rate |] eqn:Hrate;
    [discriminate Hv |].
  injection Hv as <-. split; [reflexivity | split; [reflexivity |]].
  unfold get_vat_rate in Hrate.
  destruct (get_config env fc) as [config |]; [by exists config | discriminate Hrate].
Qed.

Lemma X15_calculator_fails_only_on_null_vat_rate_witness :
  vi_rate (get_vat_rate seeded_env "Denmark" "reduced" false) = None.
Proof.
  apply (X15_calculator_fails_only_on_null_vat_rate seeded_env "Denmark" "Denmark"
           false None 1000 "reduced" false TypeError).
  reflexivity.
Defined.



(** The EU flag that [set_eu_status] stores on a VAT configuration is
    the EU test the calculator applies to that country, and setting it
    twice changes nothing. *)
Lemma eu_status_agrees_with_calculator env (cfg : VATConfiguration)
    (cc : string) (is_b2b : bool) d :
  is_eu_member (set_eu_status cfg)
    = is_freelancer_eu (TaxCalculator_init env (country cfg) cc is_b2b d)
  /\ is_eu_member (set_eu_status cfg)
     = is_company_eu (TaxCalculator_init env cc (country cfg) is_b2b d)
  /\ set_eu_status (set_eu_status cfg) = set_eu_status cfg.
Proof. repeat split. Qed.

End VatMoreFacts.

(** ** The breakdown, continued *)

Section BreakdownFacts.

Import Treaty Vat Calc Fixtures.

Local Open Scope Q_scope.

(** A reverse charge always comes with rate 0 and amount 0. *)
Lemma _calculate_vat_reverse_charge env self amount service_type v :
  _calculate_vat env self amount service_type = Returned v ->
  vat_reverse_charge v = true ->
  vat_rate v = 0 /\ vat_amount v = 0.
Proof.
  unfold _calculate_vat.
  repeat (destruct (_ && _); [intros [= <-]; by intros |]).
  destruct (vi_rate _); [| discriminate].
  intros [= <-]. discriminate.
Qed.

(** X17: in every breakdown the net payable is the gross amount plus the
    VAT amount minus the withholding amount; the separate assignment made
    under reverse charge gives the same value, the VAT amount being 0 then. *)
Theorem X17_net_payable_identity env (fc cc : string) (is_b2b : bool) d
    (g : Q) (s : string) (cert : bool) r :
  calculate_all_taxes env (TaxCalculator_init env fc cc is_b2b d) g s cert = Returned r ->
  gross_with_vat r = g + vat_amount (vat r)
  /\ total_deductions r = wt_amount (withholding_tax r)
  /\ net_payable r == g + vat_amount (vat r) - wt_amount (withholding_tax r)
  /\ (vat_reverse_charge (vat r) = true -> vat_amount (vat r) = 0).
Proof.
  intros Hr. set (c := TaxCalculator_init env fc cc is_b2b d) in *.
  destruct (_calculate_withholding_returns env c g cert) as [w Hw].
  unfold calculate_all_taxes in Hr. rewrite Hw in Hr. cbn [bind] in Hr.
  destruct (_calculate_vat env c g s) as [v |] eqn:Hv; [| discriminate Hr].
  cbn [bind] in Hr. injection Hr as <-.
  cbn [set_compliance_notes gross_with_vat total_deductions net_payable vat
       withholding_tax].
  split; [reflexivity | split; [reflexivity | split]].
  - destruct (vat_reverse_charge v) eqn:Hrc; [| reflexivity].
    destruct (_calculate_vat_reverse_charge env c g s v Hv Hrc) as [_ ->]. ring.
  - intros Hrc. by destruct (_calculate_vat_reverse_charge env c g s v Hv Hrc).
Qed.

Lemma X17_net_payable_identity_witness :
  exists r,
    calculate_all_taxes extended_env
      (TaxCalculator_init extended_env "Canada" "Netherlands" true None)
      1000 "professional" false = Returned r
    /\ net_payable r == 1000 + vat_amount (vat r) - wt_amount (withholding_tax r).
Proof.
  eexists. split; [vm_compute; reflexivity |].
  apply (X17_net_payable_identity extended_env "Canada" "Netherlands" true None
           1000 "professional" false).
  vm_compute; reflexivity.
Defined.

(** X18: a B2B payment between two different EU member states is always
    computed, whatever the VAT configurations and treaties: no withholding,
    reverse charge with 0% VAT, net payable equal to the gross amount, and
    the reverse-charge and intra-Community notes (followed by the large
    payment note above 10000). *)
Theorem X18_eu_cross_border_b2b env (a b : string) d (g : Q) (s : string) (cert : bool) :
  is_in a get_eu_countries = true ->
  is_in b get_eu_countries = true ->
  a <> b ->
  exists r,
    calculate_all_taxes env (TaxCalculator_init env a b true d) g s cert = Returned r
    /\ wt_rate (withholding_tax r) = 0 /\ wt_amount (withholding_tax r) = 0
    /\ vat_rate (vat r) = 0 /\ vat_amount (vat r) = 0
    /\ vat_reverse_charge (vat r) = true
    /\ net_payable r == g
    /\ compliance_notes r
       = REVERSE_CHARGE_NOTE :: INTRA_COMMUNITY_NOTE
         :: (if Qgt_bool g 10000 then [LARGE_PAYMENT_NOTE] else []).
Proof.
  intros Ha Hb Hne. apply String.eqb_neq in Hne.
  set (c := TaxCalculator_init env a b true d).
  assert (Hfe : is_freelancer_eu c = true) by exact Ha.
  assert (Hce : is_company_eu c = true) by exact Hb.
  assert (Hcb : is_cross_border c = true).
  { unfold c, TaxCalculator_init. cbn [is_cross_border]. by rewrite Hne. }
  assert (Hb2b : Calc.is_b2b c = true) by reflexivity.
  destruct (calculate_all_taxes_assembles env c g s cert
              {| wt_rate := 0; wt_amount := 0; wt_treaty_applied := false;
                 wt_treaty_name := None; wt_certificate_required := None;
                 wt_notes := "No withholding tax between EU member states" |}
              {| vat_rate := 0; vat_amount := 0; vat_reverse_charge := true;
                 vat_notes := "EU B2B reverse charge mechanism - VAT accounted by recipient" |})
    as [r [Hr [_ [Hw [Hv [Hnet Hnotes]]]]]].
  - unfold _calculate_withholding. by rewrite Hfe, Hce.
  - unfold _calculate_vat. by rewrite Hcb, Hfe, Hce, Hb2b.
  - exists r. rewrite Hw, Hv, Hnet, Hnotes, Hfe, Hce, Hcb.
    cbn [wt_rate wt_amount vat_rate vat_amount vat_reverse_charge Qpos_bool andb].
    split; [exact Hr |]. repeat split. ring.
Qed.

Lemma X18_eu_cross_border_b2b_witness :
  exists r,
    calculate_all_taxes seeded_env
      (TaxCalculator_init seeded_env "Germany" "Netherlands" true None)
      1000 "professional" false = Returned r
    /\ net_payable r == 1000.
Proof.
  destruct (X18_eu_cross_border_b2b seeded_env "Germany" "Netherlands" None
              1000 "professional" false)
    as [r [Hr [_ [_ [_ [_ [_ [Hnet _]]]]]]]];
    [reflexivity | reflexivity | discriminate |].
  by exists r.
Defined.

(** The withholding step with and without a certificate: everything but
    the free-text notes is the same. *)
Lemma _calculate_withholding_ignores_certificate env self amount :
  exists w1 w2,
    _calculate_withholding env self amount true = Returned w1
    /\ _calculate_withholding env self amount false = Returned w2
    /\ wt_rate w1 = wt_rate w2
    /\ wt_amount w1 = wt_amount w2
    /\ wt_treaty_applied w1 = wt_treaty_applied w2
    /\ wt_treaty_name w1 = wt_treaty_name w2.
Proof.
  destruct (is_freelancer_eu self && is_company_eu self) eqn:Heu.
  { unfold _calculate_withholding. rewrite Heu. do 2 eexists. repeat split. }
  destruct (is_cross_border self) eqn:Hcb.
  2:{ unfold _calculate_withholding. rewrite Heu, Hcb. do 2 eexists. repeat split. }
  destruct (_calculate_withholding_cross_border env self amount true Heu Hcb)
    as [ri [Hri [w1 [Hw1 [Hr1 [Ha1 [Ht1 [Hn1 _]]]]]]]].
  destruct (_calculate_withholding_cross_border env self amount false Heu Hcb)
    as [ri' [Hri' [w2 [Hw2 [Hr2 [Ha2 [Ht2 [Hn2 _]]]]]]]].
  assert (ri' = ri) as -> by congruence.
  exists w1, w2. repeat split; congruence.
Qed.

(** X19: [has_tax_certificate] changes no figure of the breakdown: with or
    without a certificate the withholding rate and amount, the VAT, the net
    payable and the compliance notes are the same. *)
Theorem X19_certificate_changes_no_figure env (fc cc : string) (is_b2b : bool) d
    (g : Q) (s : string) r1 :
  calculate_all_taxes env (TaxCalculator_init env fc cc is_b2b d) g s true = Returned r1 ->
  exists r2,
    calculate_all_taxes env (TaxCalculator_init env fc cc is_b2b d) g s false = Returned r2
    /\ wt_rate (withholding_tax r1) = wt_rate (withholding_tax r2)
    /\ wt_amount (withholding_tax r1) = wt_amount (withholding_tax r2)
    /\ vat r1 = vat r2
    /\ net_payable r1 = net_payable r2
    /\ compliance_notes r1 = compliance_notes r2.
Proof.
  intros Hr1. set (c := TaxCalculator_init env fc cc is_b2b d) in *.
  destruct (calculate_all_taxes_inv env c g s true r1 Hr1) as [w1 [v [Hw1 [Hv _]]]].
  destruct (_calculate_withholding_ignores_certificate env c g)
    as [w1' [w2 [Hw1' [Hw2 [Hrate [Hamt [Happ Hname]]]]]]].
  assert (w1' = w1) as -> by congruence.
  destruct (calculate_all_taxes_assembles env c g s true w1 v Hw1 Hv)
    as [r1' [Hr1' [_ [Hwa [Hva [Hneta Hnotesa]]]]]].
  assert (r1' = r1) as -> by congruence.
  destruct (calculate_all_taxes_assembles env c g s false w2 v Hw2 Hv)
    as [r2 [Hr2 [_ [Hwb [Hvb [Hnetb Hnotesb]]]]]].
  exists r2. rewrite Hwa, Hwb, Hva, Hvb, Hneta, Hnetb, Hnotesa, Hnotesb.
  split; [exact Hr2 |]. repeat split; try assumption.
  - by rewrite Hamt.
  - unfold TREATY_NOTE, printed_treaty_name. by rewrite Hrate, Happ, Hname.
Qed.

Lemma X19_certificate_changes_no_figure_witness :
  exists r1 r2,
    calculate_all_taxes extended_env
      (TaxCalculator_init extended_env "Canada" "Netherlands" true None)
      1000 "professional" true = Returned r1
    /\ calculate_all_taxes extended_env
         (TaxCalculator_init extended_env "Canada" "Netherlands" true None)
         1000 "professional" false = Returned r2
    /\ wt_amount (withholding_tax r1) = wt_amount (withholding_tax r2).
Proof.
  eexists.
  destruct (X19_certificate_changes_no_figure extended_env "Canada" "Netherlands"
              true None 1000 "professional" _ ltac:(vm_compute; reflexivity))
    as [r2 [Hr2 [_ [Hamt _]]]].
  exists r2. split; [reflexivity | split; [exact Hr2 | exact Hamt]].
Defined.

(** X20: a domestic B2B payment in a country whose VAT configuration has
    [reverse_charge_b2b] set carries no VAT (rate 0, amount 0) and is not
    flagged as reverse charge: the final rule keeps the rate of the lookup
    and drops its reverse-charge flag. *)
Theorem X20_domestic_b2b_under_reverse_charge_config env (c : string) d
    (g : Q) (s : string) config :
  get_config env c = Some config ->
  reverse_charge_b2b config = true ->
  vi_reverse_charge (get_vat_rate env c s true) = true
  /\ exists v,
       _calculate_vat env (TaxCalculator_init env c c true d) g s = Returned v
       /\ vat_rate v = 0
       /\ vat_amount v == 0
       /\ vat_reverse_charge v = false.
Proof.
  intros Hcfg Hrc.
  assert (Hlookup : get_vat_rate env c s true
                    = {| vi_rate := Some 0;
                         vi_reverse_charge := true;
                         vi_is_eu := Some (is_eu_member config);
                         vi_notes := "Reverse charge applies - VAT shifted to recipient" |}).
  { unfold get_vat_rate. by rewrite Hcfg, Hrc. }
  split; [by rewrite Hlookup |].
  unfold _calculate_vat, TaxCalculator_init.
  cbn [is_cross_border is_freelancer_eu is_company_eu Calc.is_b2b freelancer_country].
  rewrite String.eqb_refl, Hlookup.
  destruct (is_in c get_eu_countries); cbn [negb andb vi_rate];
    (eexists; split; [reflexivity |]; cbn [vat_rate vat_amount vat_reverse_charge];
     repeat split; apply py_round_zero_rate).
Qed.

Lemma X20_domestic_b2b_under_reverse_charge_config_witness :
  exists v,
    _calculate_vat seeded_env
      (TaxCalculator_init seeded_env "Netherlands" "Netherlands" true None)
      1000 "professional" = Returned v
    /\ vat_rate v = 0
    /\ vat_reverse_charge v = false.
Proof.
  destruct (X20_domestic_b2b_under_reverse_charge_config seeded_env "Netherlands" None
              1000 "professional" (vat_config "Netherlands" true (Some 21) (Some 9) true))
    as [_ [v [Hv [Hr [_ Hrc]]]]]; [reflexivity | reflexivity |].
  by exists v.
Defined.

End BreakdownFacts.

(** ** Compliance notes, tax years and the annual estimate *)

Section NotesAndEstimates.

Import Treaty Vat Calc CalcMore Fixtures.

Local Open Scope Q_scope.

Ltac note_cases Hin :=
  repeat (apply in_app_or in Hin as [Hin | Hin]);
  repeat match type of Hin with
         | In _ (if ?b then _ else _) => destruct b eqn:?
         | In _ (_ :: _) => destruct Hin as [Hin | Hin]
         | In _ [] => destruct Hin
         end;
  try discriminate Hin.

(** X21: the compliance notes mirror the breakdown: the reverse-charge note
    is there exactly when the VAT is under reverse charge, the withholding
    note exactly when the withholding rate is above 0, the treaty note
    exactly when in addition a treaty was applied, and the intra-Community
    note exactly for two different EU member states. *)
Theorem X21_compliance_notes_mirror_breakdown env (fc cc : string) (is_b2b : bool) d
    (g : Q) (s : string) (cert : bool) r :
  calculate_all_taxes env (TaxCalculator_init env fc cc is_b2b d) g s cert = Returned r ->
  (In REVERSE_CHARGE_NOTE (compliance_notes r)
   <-> vat_reverse_charge (vat r) = true)
  /\ (In (WITHHOLDING_NOTE env (wt_rate (withholding_tax r))) (compliance_notes r)
      <-> 0 < wt_rate (withholding_tax r))
  /\ (In (TREATY_NOTE (withholding_tax r)) (compliance_notes r)
      <-> 0 < wt_rate (withholding_tax r) /\ wt_treaty_applied (withholding_tax r) = true)
  /\ (In INTRA_COMMUNITY_NOTE (compliance_notes r)
      <-> is_in fc get_eu_countries && is_in cc get_eu_countries
          && negb (String.eqb fc cc) = true).
Proof.
  intros Hr. set (c := TaxCalculator_init env fc cc is_b2b d) in *.
  destruct (calculate_all_taxes_inv env c g s cert r Hr) as [w [v [Hw [Hv _]]]].
  destruct (calculate_all_taxes_assembles env c g s cert w v Hw Hv)
    as [r' [Hr' [_ [Hwr [Hvr [_ Hnotes]]]]]].
  assert (r' = r) as -> by congruence.
  rewrite Hnotes, Hwr, Hvr. rewrite <- Qpos_bool_true.
  change (is_freelancer_eu c && is_company_eu c && is_cross_border c)
    with (is_in fc get_eu_countries && is_in cc get_eu_countries
          && negb (String.eqb fc cc)).
  split; [split | split; [split | split; [split | split]]].
  - intros Hin. note_cases Hin. reflexivity.
  - intros ->. apply in_or_app. left. by left.
  - intros Hin. note_cases Hin; reflexivity.
  - intros ->. apply in_or_app. right. apply in_or_app. left. by left.
  - intros Hin. note_cases Hin. split; reflexivity.
  - intros [-> ->]. apply in_or_app. right. apply in_or_app. left. right. by left.
  - intros Hin. note_cases Hin; reflexivity.
  - intros ->. apply in_or_app. right. apply in_or_app. right.
    apply in_or_app. left. by left.
Qed.

Lemma X21_compliance_notes_mirror_breakdown_witness :
  exists r,
    calculate_all_taxes extended_env
      (TaxCalculator_init extended_env "Canada" "Netherlands" true None)
      1000 "professional" false = Returned r
    /\ (In (TREATY_NOTE (withholding_tax r)) (compliance_notes r)
        <-> 0 < wt_rate (withholding_tax r)
            /\ wt_treaty_applied (withholding_tax r) = true).
Proof.
  eexists. split; [vm_compute; reflexivity |].
  apply (X21_compliance_notes_mirror_breakdown extended_env "Canada" "Netherlands"
           true None 1000 "professional" false).
  vm_compute; reflexivity.
Defined.

Lemma py_date_returned y m d dt :
  py_date y m d = Returned dt ->
  dt = {| d_year := y; d_month := m; d_day := d |} /\ (1 <= y <= 9999)%Z.
Proof.
  unfold py_date. destruct (negb _); [discriminate |].
  destruct (_ && _) eqn:Hc; [| discriminate].
  intros [= <-]. split; [reflexivity |].
  repeat (apply andb_true_iff in Hc as [Hc ?]). lia.
Qed.

Lemma py_date_returns y m d :
  (1 <= y <= 9999)%Z -> (1 <= m <= 12)%Z -> (1 <= d <= days_in_month y m)%Z ->
  py_date y m d = Returned {| d_year := y; d_month := m; d_day := d |}.
Proof.
  intros Hy Hm Hd. unfold py_date.
  replace ((- 2147483648 <=? y)%Z && (y <=? 2147483647)%Z) with true
    by (symmetry; apply andb_true_iff; split; apply Z.leb_le; lia).
  cbn [negb].
  replace ((1 <=? y)%Z && (y <=? 9999)%Z && (1 <=? m)%Z && (m <=? 12)%Z
           && (1 <=? d)%Z && (d <=? days_in_month y m)%Z) with true; [reflexivity |].
  symmetry. repeat (apply andb_true_iff; split); apply Z.leb_le; lia.
Qed.

Lemma two_dates_returned y1 m1 d1 y2 m2 d2 s e :
  (let* s := py_date y1 m1 d1 in let* e := py_date y2 m2 d2 in Returned (s, e))
    = Returned (s, e) ->
  s = {| d_year := y1; d_month := m1; d_day := d1 |}
  /\ e = {| d_year := y2; d_month := m2; d_day := d2 |}
  /\ (1 <= y1 <= 9999)%Z /\ (1 <= y2 <= 9999)%Z.
Proof.
  destruct (py_date y1 m1 d1) as [a |] eqn:Ha; [| discriminate].
  destruct (py_date y2 m2 d2) as [b |] eqn:Hb; [| discriminate].
  cbn [bind]. intros [= <- <-].
  apply py_date_returned in Ha as [-> Hy1]. apply py_date_returned in Hb as [-> Hy2].
  repeat split; first [reflexivity | lia].
Qed.

(** X22: consecutive tax years follow each other without a gap or an
    overlap: the day after the end of the tax year of [y] is the start of
    the tax year of [y + 1], for every country. *)
Theorem X22_tax_years_follow_each_other (this_year : Z) (c : string) (y : Z) s1 e1 s2 e2 :
  get_tax_year_dates this_year c (Some y) = Returned (s1, e1) ->
  get_tax_year_dates this_year c (Some (y + 1)%Z) = Returned (s2, e2) ->
  next_day e1 = s2 /\ d_year s1 = y.
Proof.
  unfold get_tax_year_dates. cbn [default].
  destruct (String.eqb c "United Kingdom");
    [| destruct (String.eqb c "Australia"); [| destruct (String.eqb c "India")]];
    intros H1 H2;
    apply two_dates_returned in H1 as (-> & -> & _);
    apply two_dates_returned in H2 as (-> & -> & _);
    split; reflexivity.
Qed.

Lemma X22_tax_years_follow_each_other_witness :
  next_day {| d_year := 2027; d_month := 4; d_day := 5 |}
  = {| d_year := 2027; d_month := 4; d_day := 6 |}.
Proof.
  apply (X22_tax_years_follow_each_other 2026 "United Kingdom" 2026
           {| d_year := 2026; d_month := 4; d_day := 6 |}
           {| d_year := 2027; d_month := 4; d_day := 5 |}
           {| d_year := 2027; d_month := 4; d_day := 6 |}
           {| d_year := 2028; d_month := 4; d_day := 5 |}); reflexivity.
Defined.

(** X23: [get_tax_year_dates] returns exactly for the years 1 to 9999, and
    only up to 9998 for the United Kingdom, Australia and India, whose tax
    year ends in the following calendar year. *)
Theorem X23_tax_year_range (this_year : Z) (c : string) (y : Z) :
  returns (get_tax_year_dates this_year c (Some y))
  <-> (1 <= y <= 9999)%Z
      /\ (c = "United Kingdom" \/ c = "Australia" \/ c = "India" -> (y <= 9998)%Z).
Proof.
  unfold get_tax_year_dates. change (default this_year (Some y)) with y.
  destruct (String.eqb c "United Kingdom") eqn:Huk;
    [| destruct (String.eqb c "Australia") eqn:Hau;
       [| destruct (String.eqb c "India") eqn:Hin]];
    rewrite ?String.eqb_eq, ?String.eqb_neq in *;
    (split;
     [ intros [[s e] H]; apply two_dates_returned in H as (_ & _ & Hy & Hy');
       split; [lia | intros Hc; first [lia | destruct Hc as [E | [E | E]]; congruence]]
     | intros [Hy Hc] ]).
  - assert (y <= 9998)%Z by (apply Hc; tauto).
    rewrite !py_date_returns by (cbn; lia). by eexists.
  - assert (y <= 9998)%Z by (apply Hc; tauto).
    rewrite !py_date_returns by (cbn; lia). by eexists.
  - assert (y <= 9998)%Z by (apply Hc; tauto).
    rewrite !py_date_returns by (cbn; lia). by eexists.
  - rewrite !py_date_returns by (cbn; lia). by eexists.
Qed.

End NotesAndEstimates.

(** ** The annual estimate *)

Section AnnualEstimate.

Import Vat CalcMore Fixtures.

Local Open Scope Q_scope.

(** X24: [estimate_annual_tax_burden] fails with DoesNotExistError when
    the freelancer is unknown and with ZeroDivisionError when the income is
    0; for a known freelancer and any other income it returns an estimate
    that carries the income. *)
Theorem X24_annual_estimate_errors env (freelancers : gmap string FreelancerDoc)
    (f : string) (income : Q) :
  (freelancers !! f = None ->
   estimate_annual_tax_burden env freelancers f income = Raised DoesNotExistError)
  /\ (is_Some (freelancers !! f) ->
      (income == 0 ->
       estimate_annual_tax_burden env freelancers f income = Raised ZeroDivisionError)
      /\ (~ income == 0 ->
          exists tb,
            estimate_annual_tax_burden env freelancers f income = Returned tb
            /\ estimated_annual_income tb = income)).
Proof.
  unfold estimate_annual_tax_burden. split.
  - by intros ->.
  - intros [doc ->]. split.
    + intros H0. apply Qeq_bool_iff in H0. by rewrite H0.
    + intros Hne. destruct (Qeq_bool income 0) eqn:H0;
        [apply Qeq_bool_iff in H0; contradiction |].
      by eexists.
Qed.

Lemma X24_annual_estimate_errors_witness :
  estimate_annual_tax_burden seeded_env
    {[ "FR-0001" := {| tax_residency_country := Some "Netherlands";
                       vat_registered := true |} ]}
    "FR-0001" 0
  = Raised ZeroDivisionError.
Proof.
  apply (X24_annual_estimate_errors seeded_env
           {[ "FR-0001" := {| tax_residency_country := Some "Netherlands";
                              vat_registered := true |} ]}
           "FR-0001" 0); [by eexists | reflexivity].
Defined.



End AnnualEstimate.

(** ** Instances of the equivalences above on the seed data *)

Section SeedInstances.

Import Treaty TaxTreatyDoc CalcMore Fixtures.

Local Open Scope Q_scope.

Lemma X8_no_treaty_iff_no_match_witness :
  get_applicable_treaty seeded_env "France" "Japan" = None.
Proof.
  apply (X8_no_treaty_iff_no_match seeded_env "France" "Japan").
  simpl. intros t Hin.
  repeat (destruct Hin as [<- | Hin]; [reflexivity |]).
  destruct Hin.
Defined.

Lemma X10_validate_rates_accepts_percentages_witness :
  returns (validate_rates seeded_env NL_CA).
Proof.
  apply (X10_validate_rates_accepts_percentages seeded_env NL_CA).
  repeat constructor; discriminate.
Defined.

Lemma X23_tax_year_range_witness :
  returns (get_tax_year_dates 2026 "India" (Some 2026%Z)).
Proof.
  apply (X23_tax_year_range 2026 "India" 2026).
  split; [lia | intros _; lia].
Defined.

End SeedInstances.
